(** * File-manager tools of the Gemini CLI core: upload_file, list_files, download_file

    A shallow embedding of
      - packages/core/src/tools/upload-file.ts  (UploadFileTool and its invocation)
      - packages/core/src/tools/list-files.ts   (ListFilesTool and its invocation)
    together with the parts of node:path and of String.prototype they call,
    and the properties the specification states about them.  The download
    tool, of which only the test suite is at hand, follows the specification.

    Conventions of the embedding
      - A JavaScript string is the [string] of its bytes in UTF-8; white
        space is the WhiteSpace and LineTerminator of ECMAScript.
      - node:path is the POSIX flavour ([path.sep] is "/").
      - A JavaScript computation that may throw is a value of [Exec A]: it
        threads the log of calls made to the remote file manager and ends in
        [Returned a] or [Raised e].
      - The remote file manager (the GoogleGenAI client) and the file system are
        environments passed explicitly: [Remote] and [FileSystem]. *)

From Stdlib Require Import String Ascii List Bool Arith PeanoNat NArith ZArith QArith Lia.
From Stdlib Require Import DecimalString DecimalPos.
Import ListNotations.

Close Scope Q_scope.
Open Scope list_scope.
Open Scope string_scope.

(* ================================================================== *)
(** ** JavaScript string primitives                                    *)
(* ================================================================== *)

Module JsString.

(** The line feed of a template literal that spans lines. *)
Definition LF : string := String (ascii_of_nat 10) EmptyString.

(** The value of a byte of a string. *)
Definition byte (c : ascii) : N := N_of_ascii c.

(** A byte that continues a character (UTF-8: 10xxxxxx). *)
Definition continues (c : ascii) : bool :=
  (128 <=? byte c)%N && (byte c <? 192)%N.

(** The first bytes of a string are a character of one, two, three or four
    bytes, and its code point. *)
Definition oneByte (c1 : ascii) : bool := (byte c1 <? 128)%N.

Definition code2 (c1 c2 : ascii) : N :=
  ((byte c1 - 192) * 64 + (byte c2 - 128))%N.

Definition twoBytes (c1 c2 : ascii) : bool :=
  (194 <=? byte c1)%N && (byte c1 <? 224)%N && continues c2.

Definition code3 (c1 c2 c3 : ascii) : N :=
  ((byte c1 - 224) * 4096 + (byte c2 - 128) * 64 + (byte c3 - 128))%N.

Definition threeBytes (c1 c2 c3 : ascii) : bool :=
  (224 <=? byte c1)%N && (byte c1 <? 240)%N && continues c2 && continues c3 &&
  (2048 <=? code3 c1 c2 c3)%N.

Definition code4 (c1 c2 c3 c4 : ascii) : N :=
  ((byte c1 - 240) * 262144 + (byte c2 - 128) * 4096 + (byte c3 - 128) * 64 +
   (byte c4 - 128))%N.

Definition fourBytes (c1 c2 c3 c4 : ascii) : bool :=
  (240 <=? byte c1)%N && (byte c1 <? 245)%N &&
  continues c2 && continues c3 && continues c4 &&
  (65536 <=? code4 c1 c2 c3 c4)%N.

(** U+FFFD, for bytes that are no character. *)
Definition replacement : N := 65533%N.

(** The code points of a string. *)
Fixpoint codePoints (s : string) : list N :=
  match s with
  | EmptyString => []
  | String c1 r1 =>
      if oneByte c1 then byte c1 :: codePoints r1
      else
        match r1 with
        | EmptyString => [replacement]
        | String c2 r2 =>
            if twoBytes c1 c2 then code2 c1 c2 :: codePoints r2
            else
              match r2 with
              | EmptyString => replacement :: codePoints r1
              | String c3 r3 =>
                  if threeBytes c1 c2 c3 then code3 c1 c2 c3 :: codePoints r3
                  else
                    match r3 with
                    | EmptyString => replacement :: codePoints r1
                    | String c4 r4 =>
                        if fourBytes c1 c2 c3 c4
                        then code4 c1 c2 c3 c4 :: codePoints r4
                        else replacement :: codePoints r1
                    end
              end
        end
  end.

(** WhiteSpace and LineTerminator of ECMAScript, what [trim] strips:
    TAB, LF, VT, FF, CR, SPACE, U+00A0, U+1680, U+2000 to U+200A, U+2028,
    U+2029, U+202F, U+205F, U+3000 and U+FEFF. *)
Definition isWhiteSpace (cp : N) : bool :=
  ((9 <=? cp)%N && (cp <=? 13)%N) || (cp =? 32)%N || (cp =? 160)%N ||
  (cp =? 5760)%N || ((8192 <=? cp)%N && (cp <=? 8202)%N) ||
  (cp =? 8232)%N || (cp =? 8233)%N || (cp =? 8239)%N || (cp =? 8287)%N ||
  (cp =? 12288)%N || (cp =? 65279)%N.

(** [String.prototype.trimStart]; no white space takes four bytes. *)
Fixpoint trimStart (s : string) : string :=
  match s with
  | EmptyString => EmptyString
  | String c1 r1 =>
      if oneByte c1 then
        if isWhiteSpace (byte c1) then trimStart r1 else s
      else
        match r1 with
        | EmptyString => s
        | String c2 r2 =>
            if twoBytes c1 c2 then
              if isWhiteSpace (code2 c1 c2) then trimStart r2 else s
            else
              match r2 with
              | EmptyString => s
              | String c3 r3 =>
                  if threeBytes c1 c2 c3 && isWhiteSpace (code3 c1 c2 c3)
                  then trimStart r3 else s
              end
        end
  end.

(** [String.prototype.trimEnd]: what is left of the string ends where only
    white space follows. *)
Fixpoint trimEnd (s : string) : string :=
  match s with
  | EmptyString => EmptyString
  | String c r =>
      if trimStart (String c r) =? EmptyString then EmptyString
      else String c (trimEnd r)
  end.

(** [String.prototype.trim] *)
Definition trim (s : string) : string := trimEnd (trimStart s).

(** [s.startsWith(p)] *)
Fixpoint startsWith (s p : string) : bool :=
  match p, s with
  | EmptyString, _ => true
  | String _ _, EmptyString => false
  | String b p', String a s' => Ascii.eqb a b && startsWith s' p'
  end.

(** [s.includes(sub)] *)
Fixpoint includes (s sub : string) : bool :=
  startsWith s sub ||
  match s with
  | EmptyString => false
  | String _ s' => includes s' sub
  end.

(** [xs.join(sep)] on an array of strings *)
Fixpoint join (sep : string) (xs : list string) : string :=
  match xs with
  | [] => EmptyString
  | [x] => x
  | x :: rest => x ++ sep ++ join sep rest
  end.

(** [s.split(c)] for a one-character separator *)
Fixpoint split (c : ascii) (s : string) : list string :=
  match s with
  | EmptyString => [EmptyString]
  | String a r =>
      if Ascii.eqb a c then EmptyString :: split c r
      else match split c r with
           | h :: t => String a h :: t
           | [] => [String a EmptyString]
           end
  end.

(** Truthiness of a string-valued property that may be missing:
    [undefined] and the empty string are falsy. *)
Definition truthyStr (o : option string) : bool :=
  match o with
  | Some s => negb (s =? EmptyString)
  | None => false
  end.

(** [a || b] where [a] is an optional string and [b] a string *)
Definition orElse (o : option string) (dflt : string) : string :=
  match o with
  | Some s => if s =? EmptyString then dflt else s
  | None => dflt
  end.

(** [a || b] where both may be missing *)
Definition orElseOpt (o1 o2 : option string) : option string :=
  if truthyStr o1 then o1 else o2.

(** A template-literal hole [${x}] filled with an optional string. *)
Definition interpolate (o : option string) : string :=
  match o with
  | Some s => s
  | None => "undefined"
  end.

(** Decimal rendering of a non-negative integer, as [${n}] gives it. *)
Definition ofNat (n : nat) : string := NilEmpty.string_of_uint (Nat.to_uint n).
Definition ofN (n : N) : string := NilEmpty.string_of_uint (N.to_uint n).

End JsString.

(* ================================================================== *)
(** ** node:path, POSIX                                                *)
(* ================================================================== *)

Module Path.
Import JsString.

Definition sep : string := "/".
Definition slash : ascii := "/"%char.

(** [path.isAbsolute] *)
Definition isAbsolute (p : string) : bool :=
  match p with
  | String c _ => Ascii.eqb c slash
  | EmptyString => false
  end.

(** [normalizeString]: the segments, kept as a stack (last segment first).
    Empty and "." segments vanish; ".." removes the segment before it, and
    above the start it is kept only when [allowAboveRoot]. *)
Fixpoint normalizeSegments (allowAboveRoot : bool)
         (stack : list string) (segs : list string) : list string :=
  match segs with
  | [] => stack
  | seg :: rest =>
      if (seg =? EmptyString) || (seg =? ".") then
        normalizeSegments allowAboveRoot stack rest
      else if seg =? ".." then
        match stack with
        | top :: below =>
            if top =? ".." then
              normalizeSegments allowAboveRoot
                (if allowAboveRoot then ".." :: stack else stack) rest
            else normalizeSegments allowAboveRoot below rest
        | [] =>
            normalizeSegments allowAboveRoot
              (if allowAboveRoot then [".."] else []) rest
        end
      else normalizeSegments allowAboveRoot (seg :: stack) rest
  end.

Definition normalizeString (p : string) (allowAboveRoot : bool) : string :=
  join sep (rev (normalizeSegments allowAboveRoot [] (split slash p))).

(** [path.resolve(p)] with one argument; [cwd] is [process.cwd()]. *)
Definition resolve (cwd p : string) : string :=
  let '(resolvedPath, resolvedAbsolute) :=
    if p =? EmptyString then (EmptyString, false)
    else (p ++ "/", isAbsolute p) in
  let '(resolvedPath, resolvedAbsolute) :=
    if resolvedAbsolute then (resolvedPath, true)
    else if cwd =? EmptyString then (resolvedPath, false)
    else (cwd ++ "/" ++ resolvedPath, isAbsolute cwd) in
  let normalized := normalizeString resolvedPath (negb resolvedAbsolute) in
  if resolvedAbsolute then "/" ++ normalized
  else if normalized =? EmptyString then "." else normalized.

(** The canonical segments of an absolute path. *)
Definition segments (p : string) : list string :=
  rev (normalizeSegments false [] (split slash p)).

(** [path.basename(p)]: the last segment that is not empty. *)
Definition basename (p : string) : string :=
  match filter (fun seg => negb (seg =? EmptyString)) (rev (split slash p)) with
  | seg :: _ => seg
  | [] => EmptyString
  end.

(** [xs] without its longest initial part of elements that satisfy [f]. *)
Fixpoint dropWhile {A : Type} (f : A -> bool) (xs : list A) : list A :=
  match xs with
  | [] => []
  | x :: rest => if f x then dropWhile f rest else xs
  end.

(** [path.dirname(p)].  From the end and down to the second character:
    the separators at the end and the name before them are passed over; the
    separator met next is where the result ends.  Without one the result is
    the root or "."; a result that would be the root alone before a second
    separator is "//". *)
Definition dirname (p : string) : string :=
  match p with
  | EmptyString => "."
  | String c0 rest =>
      let hasRoot := Ascii.eqb c0 slash in
      let fromEnd := rev (list_ascii_of_string rest) in
      let afterName :=
        dropWhile (fun c => negb (Ascii.eqb c slash))
                  (dropWhile (fun c => Ascii.eqb c slash) fromEnd) in
      match afterName with
      | [] => if hasRoot then "/" else "."
      | _ :: before =>
          if hasRoot && (length before =? 0)%nat then "//"
          else String c0 (string_of_list_ascii (rev before))
      end
  end.

End Path.

(* ================================================================== *)
(** ** Values the tools exchange                                       *)
(* ================================================================== *)

(** [AuthType] of core/contentGenerator.ts, the members the tools name. *)
Inductive AuthType : Type :=
| LOGIN_WITH_GOOGLE
| USE_GEMINI
| USE_VERTEX_AI.

Definition AuthType_eqb (a b : AuthType) : bool :=
  match a, b with
  | LOGIN_WITH_GOOGLE, LOGIN_WITH_GOOGLE => true
  | USE_GEMINI, USE_GEMINI => true
  | USE_VERTEX_AI, USE_VERTEX_AI => true
  | _, _ => false
  end.

(** [authType !== t], where [authType] may be undefined *)
Definition authTypeIsNot (o : option AuthType) (t : AuthType) : bool :=
  match o with
  | Some a => negb (AuthType_eqb a t)
  | None => true
  end.

(** [ToolErrorType] of tools/tool-error.ts, the members the tools name. *)
Inductive ToolErrorType : Type :=
| UPLOAD_NOT_SUPPORTED
| FILE_UPLOAD_FAILURE
| DOWNLOAD_NOT_SUPPORTED
| FILE_DOWNLOAD_FAILURE
| FILE_LIST_FAILURE.

(** A JavaScript number, as far as [page_size <= 0] looks at it: a finite
    value (every finite double is a rational), NaN, or an infinity. *)
Inductive number : Type :=
| Finite (q : Q)
| NaN
| PosInfinity
| NegInfinity.

(** [x <= 0] *)
Definition leZero (x : number) : bool :=
  match x with
  | Finite q => Qle_bool q 0
  | NegInfinity => true
  | NaN | PosInfinity => false
  end.

(** [x > 0] *)
Definition gtZero (x : number) : bool :=
  match x with
  | Finite q => negb (Qle_bool q 0)
  | PosInfinity => true
  | NaN | NegInfinity => false
  end.

(** The value found under [sizeBytes] of a remote file descriptor.  The
    remote API sends the byte count as a decimal string ([SizeString]); the
    test doubles of the repository (list-files.test.ts, upload-file.test.ts)
    put a number there ([SizeNumber]): a byte count that is a safe integer
    (below 2^53), which a template literal prints with all its digits. *)
Inductive SizeValue : Type :=
| SizeString (s : string)
| SizeNumber (n : N).

(** Truthiness of [file.sizeBytes] *)
Definition truthySize (o : option SizeValue) : bool :=
  match o with
  | Some (SizeString s) => negb (s =? EmptyString)
  | Some (SizeNumber n) => negb (N.eqb n 0)
  | None => false
  end.

(** [${file.sizeBytes}] *)
Definition interpolateSize (o : option SizeValue) : string :=
  match o with
  | Some (SizeString s) => s
  | Some (SizeNumber n) => JsString.ofN n
  | None => "undefined"
  end.

(** [File] of @google/genai, the properties the tools read. *)
Record GeminiFile : Type := {
  name : option string;
  displayName : option string;
  uri : option string;
  mimeType : option string;
  sizeBytes : option SizeValue;
  state : option string;
  createTime : option string
}.

Record ToolError : Type := {
  message : string;
  type : ToolErrorType
}.

(** [ToolResult] of tools/tools.ts; [error] is the optional property. *)
Record ToolResult : Type := {
  llmContent : string;
  returnDisplay : string;
  error : option ToolError
}.

Record AbortSignal : Type := { aborted : bool }.

(** What a [throw] carries: an [Error] object or any other value (given by
    its string conversion). *)
Inductive Thrown : Type :=
| JsError (msg : string)
| JsValue (text : string).

(** Modelled from the spec: [getErrorMessage] of utils/errors.ts, which is
    not among the sources: the underlying message of a failure. *)
Definition getErrorMessage (e : Thrown) : string :=
  match e with
  | JsError msg => msg
  | JsValue text => text
  end.

Inductive Outcome (A : Type) : Type :=
| Returned (a : A)
| Raised (e : Thrown).
Arguments Returned {A} a.
Arguments Raised {A} e.

(* ================================================================== *)
(** ** Configuration, file system, remote file manager                 *)
(* ================================================================== *)

Record ContentGeneratorConfig : Type := {
  apiKey : option string;
  vertexai : option bool;
  authType : option AuthType
}.

(** Truthiness of [contentGeneratorConfig.vertexai] *)
Definition truthyFlag (o : option bool) : bool :=
  match o with
  | Some b => b
  | None => false
  end.

Record WorkspaceContext : Type := {
  isPathWithinWorkspace : string -> bool;
  getDirectories : list string
}.

(** [Config], the read-only services the tools ask for. *)
Record Config : Type := {
  getContentGeneratorConfig : ContentGeneratorConfig;
  getWorkspaceContext : WorkspaceContext;
  getProjectTempDir : string;          (* config.storage.getProjectTempDir() *)
  shouldGeminiIgnoreFile : string -> bool; (* config.getFileService() *)
  getTargetDir : string
}.

Record Stats : Type := { isFile : bool }.

(** node:fs and the process, as the validators see them.  [existsSync] never
    throws; [lstatSync] may. *)
Record FileSystem : Type := {
  cwd : string;
  existsSync : string -> bool;
  lstatSync : string -> Outcome Stats
}.

(** The async iterable [files.list] resolves to: it ends, yields a
    descriptor and goes on, or throws. *)
Inductive Pager : Type :=
| PagerDone
| PagerYield (file : GeminiFile) (rest : Pager)
| PagerThrow (e : Thrown).

(** The remote file manager behind [new GoogleGenAI(...)]: what the
    constructor and each call of [files] answer. *)
Record Remote : Type := {
  newGoogleGenAI : option string -> option bool -> Outcome unit;
  files_upload : string -> option string -> AbortSignal -> Outcome GeminiFile;
  files_list : option number -> AbortSignal -> Outcome Pager;
  files_download : string -> string -> AbortSignal -> Outcome unit
}.

(** One entry of the log of what was asked of the remote file manager. *)
Inductive Call : Type :=
| CallNewGoogleGenAI (key : option string) (vertex : option bool)
| CallUpload (file : string) (display : option string) (signal : AbortSignal)
| CallList (pageSize : option number) (signal : AbortSignal)
| CallNext
| CallDownload (file : string) (downloadPath : string) (signal : AbortSignal).

(* ================================================================== *)
(** ** Computations that log remote calls and may throw                *)
(* ================================================================== *)

Definition Exec (A : Type) : Type := list Call -> Outcome A * list Call.

Definition ret {A} (a : A) : Exec A := fun log => (Returned a, log).

Definition throw {A} (e : Thrown) : Exec A := fun log => (Raised e, log).

Definition bind {A B} (m : Exec A) (k : A -> Exec B) : Exec B :=
  fun log =>
    match m log with
    | (Returned a, log') => k a log'
    | (Raised e, log') => (Raised e, log')
    end.

(** [try { body } catch (error) { handler }] *)
Definition tryCatch {A} (body : Exec A) (handler : Thrown -> Exec A) : Exec A :=
  fun log =>
    match body log with
    | (Returned a, log') => (Returned a, log')
    | (Raised e, log') => handler e log'
    end.

(** A call to the remote file manager: logged, then answered. *)
Definition remoteCall {A} (c : Call) (answer : Outcome A) : Exec A :=
  fun log => (answer, (log ++ [c])%list).

Notation "x <- m ;; k" := (bind m (fun x => k))
  (at level 61, m at next level, right associativity).

(** [for await (const file of listResponse) files.push(file)] *)
Fixpoint forAwait (listResponse : Pager) (files : list GeminiFile)
  : Exec (list GeminiFile) :=
  match listResponse with
  | PagerDone => _ <- remoteCall CallNext (Returned tt) ;; ret files
  | PagerYield file rest =>
      _ <- remoteCall CallNext (Returned tt) ;;
      forAwait rest (files ++ [file])%list
  | PagerThrow e => remoteCall CallNext (Raised e)
  end.

(** Modelled from the spec: [BaseDeclarativeTool.build] of tools/tools.ts,
    which is not among the sources: validation runs first; a message makes
    [build] raise a validation fault carrying it, and no invocation exists;
    otherwise the invocation is created.  The test suites observe the same:
    [tool.build(params)] throws an error whose message is the validator's. *)
Definition buildWith {P I : Type}
           (validate : P -> option string) (createInvocation : P -> I)
           (params : P) : Outcome I :=
  match validate params with
  | Some validationError => Raised (JsError validationError)
  | None => Returned (createInvocation params)
  end.

(* ================================================================== *)
(** ** tools/upload-file.ts                                            *)
(* ================================================================== *)

Module UploadFile.
Import JsString.

Record UploadFileToolParams : Type := {
  absolute_path : string;
  display_name : option string
}.

Record UploadFileToolInvocation : Type := {
  config : Config;
  params : UploadFileToolParams
}.

Definition vertexMessage : string :=
  "File upload is not supported when using Vertex AI. Please use Gemini API (GEMINI_API_KEY) or OAuth authentication.".

Definition authMessage : string :=
  "File upload requires either Gemini API key (GEMINI_API_KEY) or OAuth authentication.".

Definition emptyMessage : string :=
  "The 'absolute_path' parameter must be non-empty.".

Definition relativeMessage (filePath : string) : string :=
  "File path must be absolute, but was relative: " ++ filePath ++
  ". You must provide an absolute path.".

Definition outsideMessage (directories : list string) (projectTempDir : string)
  : string :=
  "File path must be within one of the workspace directories: " ++
  join ", " directories ++
  " or within the project temp directory: " ++ projectTempDir.

Definition ignoredMessage (filePath : string) : string :=
  "File path '" ++ filePath ++ "' is ignored by .geminiignore pattern(s).".

Definition missingMessage (filePath : string) : string :=
  "File does not exist: " ++ filePath.

Definition notFileMessage (filePath : string) : string :=
  "Path is not a file: " ++ filePath.

Definition inaccessibleMessage (filePath : string) : string :=
  "File does not exist or cannot be accessed: " ++ filePath.

(** [isWithinTempDir] of [validateToolParamValues] *)
Definition isWithinTempDir (fs : FileSystem) (projectTempDir filePath : string)
  : bool :=
  let resolvedFilePath := Path.resolve (cwd fs) filePath in
  let resolvedProjectTempDir := Path.resolve (cwd fs) projectTempDir in
  startsWith resolvedFilePath (resolvedProjectTempDir ++ Path.sep) ||
  (resolvedFilePath =? resolvedProjectTempDir).

(** The [try] block of [validateToolParamValues]: the message it returns,
    [None] when it falls through, [Raised] when [lstatSync] throws. *)
Definition checkFile (fs : FileSystem) (filePath : string)
  : Outcome (option string) :=
  if negb (existsSync fs filePath) then Returned (Some (missingMessage filePath))
  else
    match lstatSync fs filePath with
    | Raised e => Raised e
    | Returned stats =>
        if negb (isFile stats) then Returned (Some (notFileMessage filePath))
        else Returned None
    end.

(** [UploadFileTool.validateToolParamValues]; [None] is [null]. *)
Definition validateToolParamValues (config : Config) (fs : FileSystem)
           (params : UploadFileToolParams) : option string :=
  let filePath := absolute_path params in
  if trim (absolute_path params) =? EmptyString then Some emptyMessage
  else if negb (Path.isAbsolute filePath) then Some (relativeMessage filePath)
  else
    let workspaceContext := getWorkspaceContext config in
    let projectTempDir := getProjectTempDir config in
    if negb (isPathWithinWorkspace workspaceContext filePath) &&
       negb (isWithinTempDir fs projectTempDir filePath)
    then Some (outsideMessage (getDirectories workspaceContext) projectTempDir)
    else if shouldGeminiIgnoreFile config (absolute_path params)
    then Some (ignoredMessage filePath)
    else
      match checkFile fs (absolute_path params) with
      | Raised _ => Some (inaccessibleMessage filePath)
      | Returned (Some rejection) => Some rejection
      | Returned None =>
          let contentGeneratorConfig := getContentGeneratorConfig config in
          if truthyFlag (vertexai contentGeneratorConfig) then Some vertexMessage
          else if authTypeIsNot (authType contentGeneratorConfig) USE_GEMINI &&
                  authTypeIsNot (authType contentGeneratorConfig) LOGIN_WITH_GOOGLE
          then Some authMessage
          else None
      end.

Definition createInvocation (cfg : Config) (p : UploadFileToolParams)
  : UploadFileToolInvocation :=
  {| config := cfg; params := p |}.

(** [tool.build(params)] *)
Definition build (cfg : Config) (fs : FileSystem) (p : UploadFileToolParams)
  : Outcome UploadFileToolInvocation :=
  buildWith (validateToolParamValues cfg fs) (createInvocation cfg) p.

Definition successMessage (filePath : string) (uploadedFile : GeminiFile)
  : string :=
  let fileName := Path.basename filePath in
  let displayName := orElse (displayName uploadedFile) fileName in
  let fileUri := orElseOpt (uri uploadedFile) (name uploadedFile) in
  "Successfully uploaded file: " ++ displayName ++ LF ++
  "File URI: " ++ interpolate fileUri ++ LF ++
  "MIME Type: " ++ interpolate (mimeType uploadedFile) ++ LF ++
  "Size: " ++ (if truthySize (sizeBytes uploadedFile)
               then interpolateSize (sizeBytes uploadedFile) ++ " bytes"
               else "unknown") ++ LF ++
  "State: " ++ interpolate (state uploadedFile) ++ LF ++
  LF ++
  "You can now reference this file in your prompts using the file URI.".

Definition failureMessage (filePath errorMessage : string) : string :=
  "Error uploading file '" ++ filePath ++ "': " ++ errorMessage.

(** [UploadFileToolInvocation.execute] *)
Definition execute (inv : UploadFileToolInvocation) (remote : Remote)
           (signal : AbortSignal) : Exec ToolResult :=
  let contentGeneratorConfig := getContentGeneratorConfig (config inv) in
  if truthyFlag (vertexai contentGeneratorConfig) then
    let errorMsg := vertexMessage in
    ret {| llmContent := errorMsg;
           returnDisplay := errorMsg;
           error := Some {| message := errorMsg; type := UPLOAD_NOT_SUPPORTED |} |}
  else
    tryCatch
      (let key := match apiKey contentGeneratorConfig with
                  | Some k => if k =? EmptyString then None else Some k
                  | None => None
                  end in
       _ <- remoteCall (CallNewGoogleGenAI key (vertexai contentGeneratorConfig))
              (newGoogleGenAI remote key (vertexai contentGeneratorConfig)) ;;
       uploadedFile <-
         remoteCall
           (CallUpload (absolute_path (params inv)) (display_name (params inv)) signal)
           (files_upload remote (absolute_path (params inv))
                         (display_name (params inv)) signal) ;;
       let msg := successMessage (absolute_path (params inv)) uploadedFile in
       ret {| llmContent := msg; returnDisplay := msg; error := None |})
      (fun error =>
         let errorMessage := getErrorMessage error in
         let errorMsg := failureMessage (absolute_path (params inv)) errorMessage in
         ret {| llmContent := errorMsg;
                returnDisplay := errorMsg;
                error := Some {| message := errorMsg; type := FILE_UPLOAD_FAILURE |} |}).

End UploadFile.

(* ================================================================== *)
(** ** tools/list-files.ts                                             *)
(* ================================================================== *)

Module ListFiles.
Import JsString.

Record ListFilesToolParams : Type := {
  page_size : option number
}.

Record ListFilesToolInvocation : Type := {
  config : Config;
  params : ListFilesToolParams
}.

Definition pageSizeMessage : string := "page_size must be a positive number".

Definition vertexMessage : string :=
  "File listing is not supported when using Vertex AI. Please use Gemini API (GEMINI_API_KEY) or OAuth authentication.".

Definition authMessage : string :=
  "File listing requires either Gemini API key (GEMINI_API_KEY) or OAuth authentication.".

(** [ListFilesTool.validateToolParamValues]; [None] is [null]. *)
Definition validateToolParamValues (config : Config)
           (params : ListFilesToolParams) : option string :=
  if match page_size params with
     | Some n => leZero n
     | None => false
     end
  then Some pageSizeMessage
  else
    let contentGeneratorConfig := getContentGeneratorConfig config in
    if truthyFlag (vertexai contentGeneratorConfig) then Some vertexMessage
    else if authTypeIsNot (authType contentGeneratorConfig) USE_GEMINI &&
            authTypeIsNot (authType contentGeneratorConfig) LOGIN_WITH_GOOGLE
    then Some authMessage
    else None.

Definition createInvocation (cfg : Config) (p : ListFilesToolParams)
  : ListFilesToolInvocation :=
  {| config := cfg; params := p |}.

(** [tool.build(params)] *)
Definition build (cfg : Config) (p : ListFilesToolParams)
  : Outcome ListFilesToolInvocation :=
  buildWith (validateToolParamValues cfg) (createInvocation cfg) p.

Definition emptyMessage : string :=
  "No files found in the Gemini API file manager.".

(** The callback of [files.map((file, index) => ...)] *)
Definition formatFile (file : GeminiFile) (index : nat) : string :=
  let displayName := orElse (displayName file) "N/A" in
  let uri := orElse (orElseOpt (uri file) (name file)) "N/A" in
  let mimeType := orElse (mimeType file) "unknown" in
  let size := if truthySize (sizeBytes file)
              then interpolateSize (sizeBytes file) ++ " bytes"
              else "unknown" in
  let state := orElse (state file) "unknown" in
  let createTime := orElse (createTime file) "unknown" in
  ofNat (index + 1) ++ ". " ++ displayName ++ LF ++
  "   URI: " ++ uri ++ LF ++
  "   MIME Type: " ++ mimeType ++ LF ++
  "   Size: " ++ size ++ LF ++
  "   State: " ++ state ++ LF ++
  "   Created: " ++ createTime.

(** [files.map(callback)], the callback receiving the index *)
Fixpoint mapWithIndex (callback : GeminiFile -> nat -> string)
         (files : list GeminiFile) (index : nat) : list string :=
  match files with
  | [] => []
  | file :: rest => callback file index :: mapWithIndex callback rest (S index)
  end.

Definition trailer : string :=
  "You can reference these files in your prompts using their URI, or download them using the download_file tool.".

Definition successMessage (files : list GeminiFile) : string :=
  let filesList := join (LF ++ LF) (mapWithIndex formatFile files 0) in
  "Found " ++ ofNat (length files) ++ " file(s) in Gemini API file manager:" ++ LF ++
  LF ++
  filesList ++ LF ++
  LF ++
  trailer.

Definition failureMessage (errorMessage : string) : string :=
  "Error listing files from Gemini API: " ++ errorMessage.

(** [ListFilesToolInvocation.execute] *)
Definition execute (inv : ListFilesToolInvocation) (remote : Remote)
           (signal : AbortSignal) : Exec ToolResult :=
  let contentGeneratorConfig := getContentGeneratorConfig (config inv) in
  if truthyFlag (vertexai contentGeneratorConfig) then
    let errorMsg := vertexMessage in
    ret {| llmContent := errorMsg;
           returnDisplay := errorMsg;
           error := Some {| message := errorMsg; type := DOWNLOAD_NOT_SUPPORTED |} |}
  else
    tryCatch
      (let key := match apiKey contentGeneratorConfig with
                  | Some k => if k =? EmptyString then None else Some k
                  | None => None
                  end in
       _ <- remoteCall (CallNewGoogleGenAI key (vertexai contentGeneratorConfig))
              (newGoogleGenAI remote key (vertexai contentGeneratorConfig)) ;;
       listResponse <-
         remoteCall (CallList (page_size (params inv)) signal)
                    (files_list remote (page_size (params inv)) signal) ;;
       files <- forAwait listResponse [] ;;
       if (length files =? 0)%nat then
         let msg := emptyMessage in
         ret {| llmContent := msg; returnDisplay := msg; error := None |}
       else
         let msg := successMessage files in
         ret {| llmContent := msg; returnDisplay := msg; error := None |})
      (fun error =>
         let errorMessage := getErrorMessage error in
         let errorMsg := failureMessage errorMessage in
         ret {| llmContent := errorMsg;
                returnDisplay := errorMsg;
                error := Some {| message := errorMsg; type := FILE_LIST_FAILURE |} |}).

End ListFiles.

(* ================================================================== *)
(** ** tools/download-file.ts                                          *)
(* ================================================================== *)

(** Modelled from the spec: the download tool, whose implementation
    (download-file.ts) is not among the sources; its test
    (download-file.test.ts) and the specification are.  The module follows
    the specification (4.1, 4.2, 4.3, 7), with the parameter names and the
    message openings the test fixes. *)
Module DownloadFile.
Import JsString.

Record DownloadFileToolParams : Type := {
  file_uri : string;
  download_path : string
}.

Record DownloadFileToolInvocation : Type := {
  config : Config;
  params : DownloadFileToolParams
}.

Definition vertexMessage : string :=
  "File download is not supported when using Vertex AI.".

Definition outsideMessage (directories : list string) (projectTempDir : string)
  : string :=
  "Download path must be within one of the workspace directories: " ++
  join ", " directories ++
  " or within the project temp directory: " ++ projectTempDir.

(** Modelled from the spec: rule 3 of PathSandbox for the download target,
    whose implementation is not among the sources: the canonical form
    equals the temp root's or is nested under it. *)
Definition isWithinTempDir (fs : FileSystem) (projectTempDir target : string)
  : bool :=
  let resolvedTarget := Path.resolve (cwd fs) target in
  let resolvedProjectTempDir := Path.resolve (cwd fs) projectTempDir in
  startsWith resolvedTarget (resolvedProjectTempDir ++ Path.sep) ||
  (resolvedTarget =? resolvedProjectTempDir).

(** Modelled from the spec: [DownloadFileTool.validateToolParamValues],
    which is not among the sources: non-empty identifier and path, the
    authorization-mode gate, then the sandbox on the target path (absolute,
    contained in a workspace root or the temp root, parent directory
    exists); no ignore-pattern rule and no existence of the target. *)
Definition validateToolParamValues (config : Config) (fs : FileSystem)
           (params : DownloadFileToolParams) : option string :=
  let target := download_path params in
  if file_uri params =? EmptyString
  then Some "The 'file_uri' parameter must be non-empty."
  else if target =? EmptyString
  then Some "The 'download_path' parameter must be non-empty."
  else if truthyFlag (vertexai (getContentGeneratorConfig config))
  then Some vertexMessage
  else if negb (Path.isAbsolute target)
  then Some ("Download path must be absolute, but was relative: " ++ target ++
             ". You must provide an absolute path.")
  else if negb (isPathWithinWorkspace (getWorkspaceContext config) target) &&
          negb (isWithinTempDir fs (getProjectTempDir config) target)
  then Some (outsideMessage (getDirectories (getWorkspaceContext config))
                            (getProjectTempDir config))
  else if negb (existsSync fs (Path.dirname target))
  then Some ("Parent directory does not exist: " ++ Path.dirname target)
  else None.

Definition createInvocation (cfg : Config) (p : DownloadFileToolParams)
  : DownloadFileToolInvocation :=
  {| config := cfg; params := p |}.

Definition build (cfg : Config) (fs : FileSystem) (p : DownloadFileToolParams)
  : Outcome DownloadFileToolInvocation :=
  buildWith (validateToolParamValues cfg fs) (createInvocation cfg) p.

Definition successMessage (fileUri target : string) : string :=
  "Successfully downloaded file: " ++ fileUri ++ LF ++ "Saved to: " ++ target.

Definition failureMessage (fileUri errorMessage : string) : string :=
  "Error downloading file '" ++ fileUri ++ "': " ++ errorMessage.

(** Modelled from the spec: [DownloadFileToolInvocation.execute], which is
    not among the sources: the adapter's download is called with the
    identifier, the target path and the cancellation signal; success gives
    a confirmation with both, any failure an error result of the
    remote-operation-failed kind carrying the underlying message. *)
Definition execute (inv : DownloadFileToolInvocation) (remote : Remote)
           (signal : AbortSignal) : Exec ToolResult :=
  let contentGeneratorConfig := getContentGeneratorConfig (config inv) in
  tryCatch
    (let key := match apiKey contentGeneratorConfig with
                | Some k => if k =? EmptyString then None else Some k
                | None => None
                end in
     _ <- remoteCall (CallNewGoogleGenAI key (vertexai contentGeneratorConfig))
            (newGoogleGenAI remote key (vertexai contentGeneratorConfig)) ;;
     _ <- remoteCall
            (CallDownload (file_uri (params inv)) (download_path (params inv)) signal)
            (files_download remote (file_uri (params inv))
                            (download_path (params inv)) signal) ;;
     let msg := successMessage (file_uri (params inv)) (download_path (params inv)) in
     ret {| llmContent := msg; returnDisplay := msg; error := None |})
    (fun error =>
       let errorMessage := getErrorMessage error in
       let errorMsg := failureMessage (file_uri (params inv)) errorMessage in
       ret {| llmContent := errorMsg;
              returnDisplay := errorMsg;
              error := Some {| message := errorMsg; type := FILE_DOWNLOAD_FAILURE |} |}).

End DownloadFile.

(* ================================================================== *)
(** ** The vocabulary of the specification                             *)
(* ================================================================== *)

Module Spec.
Import JsString.

(** The key [new GoogleGenAI] is given: an empty key counts as none. *)
Definition clientKey (cg : ContentGeneratorConfig) : option string :=
  match apiKey cg with
  | Some k => if k =? EmptyString then None else Some k
  | None => None
  end.

(** A configuration in another authentication mode, all else unchanged. *)
Definition withContentGenerator (cfg : Config) (cg : ContentGeneratorConfig)
  : Config :=
  {| getContentGeneratorConfig := cg;
     getWorkspaceContext := getWorkspaceContext cfg;
     getProjectTempDir := getProjectTempDir cfg;
     shouldGeminiIgnoreFile := shouldGeminiIgnoreFile cfg;
     getTargetDir := getTargetDir cfg |}.

(** The Gemini API mode of the tests: a key, not Vertex AI. *)
Definition geminiMode : ContentGeneratorConfig :=
  {| apiKey := Some "test-api-key";
     vertexai := Some false;
     authType := Some USE_GEMINI |}.

(** The managed-platform mode of the tests. *)
Definition vertexMode : ContentGeneratorConfig :=
  {| apiKey := Some "test-api-key";
     vertexai := Some true;
     authType := Some USE_VERTEX_AI |}.

(** A mode in which the tools are available. *)
Definition supported (cg : ContentGeneratorConfig) : bool :=
  negb (truthyFlag (vertexai cg)) &&
  negb (authTypeIsNot (authType cg) USE_GEMINI &&
        authTypeIsNot (authType cg) LOGIN_WITH_GOOGLE).

(** 4.1 of the specification for the upload tool: the rules in the order
    it lists them, each with the condition under which it rejects and its
    message. *)
Definition uploadRules (cfg : Config) (fs : FileSystem) (candidatePath : string)
  : list (bool * string) :=
  [ (trim candidatePath =? EmptyString, UploadFile.emptyMessage);
    (negb (Path.isAbsolute candidatePath), UploadFile.relativeMessage candidatePath);
    (negb (isPathWithinWorkspace (getWorkspaceContext cfg) candidatePath) &&
     negb (UploadFile.isWithinTempDir fs (getProjectTempDir cfg) candidatePath),
     UploadFile.outsideMessage (getDirectories (getWorkspaceContext cfg))
                               (getProjectTempDir cfg));
    (shouldGeminiIgnoreFile cfg candidatePath, UploadFile.ignoredMessage candidatePath);
    (negb (existsSync fs candidatePath), UploadFile.missingMessage candidatePath);
    (match lstatSync fs candidatePath with
     | Returned stats => negb (isFile stats)
     | Raised _ => false
     end, UploadFile.notFileMessage candidatePath) ].

(** The message of the first rule that rejects. *)
Fixpoint firstRejection (rules : list (bool * string)) : option string :=
  match rules with
  | [] => None
  | (rejects, msg) :: later => if rejects then Some msg else firstRejection later
  end.

(** The canonical form of [p] equals that of [root] or continues it past
    a separator. *)
Definition equalOrNestedUnder (fs : FileSystem) (root p : string) : Prop :=
  Path.resolve (cwd fs) p = Path.resolve (cwd fs) root \/
  exists rest,
    Path.resolve (cwd fs) p = Path.resolve (cwd fs) root ++ Path.sep ++ rest.

(** The first failure the remote file manager answers with while an
    upload runs, if any. *)
Definition uploadFault (inv : UploadFile.UploadFileToolInvocation)
           (remote : Remote) (signal : AbortSignal) : option Thrown :=
  let cg := getContentGeneratorConfig (UploadFile.config inv) in
  match newGoogleGenAI remote (clientKey cg) (vertexai cg) with
  | Raised e => Some e
  | Returned _ =>
      match files_upload remote (UploadFile.absolute_path (UploadFile.params inv))
              (UploadFile.display_name (UploadFile.params inv)) signal with
      | Raised e => Some e
      | Returned _ => None
      end
  end.

Definition downloadFault (inv : DownloadFile.DownloadFileToolInvocation)
           (remote : Remote) (signal : AbortSignal) : option Thrown :=
  let cg := getContentGeneratorConfig (DownloadFile.config inv) in
  match newGoogleGenAI remote (clientKey cg) (vertexai cg) with
  | Raised e => Some e
  | Returned _ =>
      match files_download remote
              (DownloadFile.file_uri (DownloadFile.params inv))
              (DownloadFile.download_path (DownloadFile.params inv)) signal with
      | Raised e => Some e
      | Returned _ => None
      end
  end.

(** What a remote sequence ends in: the failure it throws, if it does. *)
Fixpoint pagerFault (p : Pager) : option Thrown :=
  match p with
  | PagerDone => None
  | PagerYield _ rest => pagerFault rest
  | PagerThrow e => Some e
  end.

(** The descriptors a remote sequence yields, in the order it yields them. *)
Fixpoint pagerFiles (p : Pager) : list GeminiFile :=
  match p with
  | PagerDone => []
  | PagerYield file rest => file :: pagerFiles rest
  | PagerThrow _ => []
  end.

Definition listFault (inv : ListFiles.ListFilesToolInvocation)
           (remote : Remote) (signal : AbortSignal) : option Thrown :=
  let cg := getContentGeneratorConfig (ListFiles.config inv) in
  match newGoogleGenAI remote (clientKey cg) (vertexai cg) with
  | Raised e => Some e
  | Returned _ =>
      match files_list remote (ListFiles.page_size (ListFiles.params inv)) signal with
      | Raised e => Some e
      | Returned pager => pagerFault pager
      end
  end.

(** How an entry of the listing shows a text property: the value when
    there is one, the default when the descriptor lacks it. *)
Inductive shownAs (dflt : string) : option string -> string -> Prop :=
| shown_default : shownAs dflt None dflt
| shown_value (v : string) : v <> EmptyString -> shownAs dflt (Some v) v.

(** The remote URI of an entry: the uri, else the resource name, else
    the default. *)
Inductive uriShownAs (file : GeminiFile) : string -> Prop :=
| uri_given (v : string) :
    shownAs "N/A" (uri file) v -> uri file <> None -> uriShownAs file v
| uri_from_name (v : string) :
    uri file = None -> shownAs "N/A" (name file) v -> uriShownAs file v.

(** The size of an entry: the byte count followed by " bytes", the default
    when the descriptor lacks it. *)
Inductive sizeShownAs : option SizeValue -> string -> Prop :=
| size_default : sizeShownAs None "unknown"
| size_number (n : N) :
    n <> 0%N -> sizeShownAs (Some (SizeNumber n)) (ofN n ++ " bytes")
| size_string (v : string) :
    v <> EmptyString -> sizeShownAs (Some (SizeString v)) (v ++ " bytes").

Definition errorResult (msg : string) (kind : ToolErrorType) : ToolResult :=
  {| llmContent := msg;
     returnDisplay := msg;
     error := Some {| message := msg; type := kind |} |}.

Definition successResult (msg : string) : ToolResult :=
  {| llmContent := msg; returnDisplay := msg; error := None |}.

End Spec.

(* ================================================================== *)
(** ** A concrete workspace, file system and remote                    *)
(* ================================================================== *)

(** The set-up of the test suites, with the temp directory placed outside
    the workspace root. *)
Module Fixture.
Import JsString.

Definition root : string := "/home/user/project".
Definition tempDir : string := "/home/user/.gemini/tmp/abc".

Definition workspace : WorkspaceContext :=
  {| isPathWithinWorkspace := fun p =>
       let r := Path.resolve root p in
       startsWith r (root ++ "/") || (r =? root);
     getDirectories := [root] |}.

Definition configIn (cg : ContentGeneratorConfig) : Config :=
  {| getContentGeneratorConfig := cg;
     getWorkspaceContext := workspace;
     getProjectTempDir := tempDir;
     shouldGeminiIgnoreFile := fun p => startsWith p (root ++ "/secret/");
     getTargetDir := root |}.

Definition geminiConfig : Config := configIn Spec.geminiMode.
Definition vertexConfig : Config := configIn Spec.vertexMode.

Definition regularFiles : list string :=
  [ root ++ "/test.txt";
    root ++ "/secret/key.txt";
    tempDir ++ "/temp-file.txt" ].

Definition directories : list string :=
  [ root; root ++ "/testdir"; root ++ "/secret"; tempDir ].

Definition memberOf (p : string) (ps : list string) : bool :=
  existsb (String.eqb p) ps.

Definition disk : FileSystem :=
  {| cwd := root;
     existsSync := fun p => memberOf p regularFiles || memberOf p directories;
     lstatSync := fun p =>
       if memberOf p regularFiles then Returned {| isFile := true |}
       else if memberOf p directories then Returned {| isFile := false |}
       else Raised (JsError "ENOENT: no such file or directory") |}.

Definition signal : AbortSignal := {| aborted := false |}.

Definition file1 : GeminiFile :=
  {| name := Some "files/test123";
     displayName := Some "test1.txt";
     uri := Some "https://generativelanguage.googleapis.com/v1beta/files/test123";
     mimeType := Some "text/plain";
     sizeBytes := Some (SizeNumber 100);
     state := Some "ACTIVE";
     createTime := Some "2024-01-01T00:00:00Z" |}.

Definition file2 : GeminiFile :=
  {| name := Some "files/test456";
     displayName := Some "test2.mp4";
     uri := None;
     mimeType := None;
     sizeBytes := None;
     state := None;
     createTime := None |}.


(** A remote that answers every call; it holds [listing]. *)
Definition remoteWith (uploaded : GeminiFile) (listing : Pager) : Remote :=
  {| newGoogleGenAI := fun _ _ => Returned tt;
     files_upload := fun _ _ _ => Returned uploaded;
     files_list := fun _ _ => Returned listing;
     files_download := fun _ _ _ => Returned tt |}.

(** A remote every call of which fails. *)
Definition remoteDown : Remote :=
  {| newGoogleGenAI := fun _ _ => Returned tt;
     files_upload := fun _ _ _ => Raised (JsError "Upload failed");
     files_list := fun _ _ => Raised (JsError "List failed");
     files_download := fun _ _ _ => Raised (JsError "Download failed") |}.

(** A listing that breaks after its first descriptor. *)
Definition brokenListing : Pager :=
  PagerYield file1 (PagerThrow (JsError "connection reset")).

Definition twoFiles : Pager := PagerYield file1 (PagerYield file2 PagerDone).

Definition uploadParams (p : string) : UploadFile.UploadFileToolParams :=
  {| UploadFile.absolute_path := p; UploadFile.display_name := None |}.

Definition downloadParams (p : string) : DownloadFile.DownloadFileToolParams :=
  {| DownloadFile.file_uri := "files/test123"; DownloadFile.download_path := p |}.

Definition pageSize (n : option number) : ListFiles.ListFilesToolParams :=
  {| ListFiles.page_size := n |}.

End Fixture.

(* ================================================================== *)
(** ** Shapes of paths, runs and further cases                         *)
(* ================================================================== *)

Module Shape.
Import JsString.

(** Every character of [s] is white space (so is the empty string). *)
Definition allWhiteSpace (s : string) : bool :=
  forallb isWhiteSpace (codePoints s).

(** No character of [s] is the separator. *)
Fixpoint noSlash (s : string) : bool :=
  match s with
  | EmptyString => true
  | String c r => negb (Ascii.eqb c Path.slash) && noSlash r
  end.

(** A name of a directory entry: not empty, without a separator. *)
Definition entryName (s : string) : bool :=
  negb (s =? EmptyString) && noSlash s.

(** A segment of a canonical path: an entry name other than "." and "..". *)
Definition plainSegment (s : string) : bool :=
  entryName s && negb (s =? ".") && negb (s =? "..").

(** [xs] is an initial part of [ys]. *)
Definition initialPart (xs ys : list string) : Prop :=
  exists more, ys = (xs ++ more)%list.

(** How often a [for await] loop asks the sequence for its next element:
    once per descriptor it yields, and once more for the end or the
    failure. *)
Definition pulls (p : Pager) : nat := S (length (Spec.pagerFiles p)).

(** The calls an upload makes outside Vertex AI mode. *)
Definition uploadCalls (inv : UploadFile.UploadFileToolInvocation)
           (remote : Remote) (signal : AbortSignal) : list Call :=
  let cg := getContentGeneratorConfig (UploadFile.config inv) in
  CallNewGoogleGenAI (Spec.clientKey cg) (vertexai cg) ::
  match newGoogleGenAI remote (Spec.clientKey cg) (vertexai cg) with
  | Raised _ => []
  | Returned _ =>
      [CallUpload (UploadFile.absolute_path (UploadFile.params inv))
                  (UploadFile.display_name (UploadFile.params inv)) signal]
  end.

(** The calls a listing makes outside Vertex AI mode. *)
Definition listCalls (inv : ListFiles.ListFilesToolInvocation)
           (remote : Remote) (signal : AbortSignal) : list Call :=
  let cg := getContentGeneratorConfig (ListFiles.config inv) in
  CallNewGoogleGenAI (Spec.clientKey cg) (vertexai cg) ::
  match newGoogleGenAI remote (Spec.clientKey cg) (vertexai cg) with
  | Raised _ => []
  | Returned _ =>
      CallList (ListFiles.page_size (ListFiles.params inv)) signal ::
      match files_list remote (ListFiles.page_size (ListFiles.params inv)) signal with
      | Raised _ => []
      | Returned pager => repeat CallNext (pulls pager)
      end
  end.




End Shape.

Module Cases.

(** A file system on which the test file exists but cannot be examined. *)
Definition lockedDisk : FileSystem :=
  {| cwd := Fixture.root;
     existsSync := existsSync Fixture.disk;
     lstatSync := fun _ => Raised (JsError "EACCES: permission denied") |}.

(** A configuration whose authentication type was never set. *)
Definition unsetConfig : Config :=
  Fixture.configIn {| apiKey := Some EmptyString;
                      vertexai := None;
                      authType := None |}.

(** A descriptor that carries nothing but its resource name. *)
Definition bareFile : GeminiFile :=
  {| name := Some "files/bare";
     displayName := None;
     uri := None;
     mimeType := None;
     sizeBytes := None;
     state := None;
     createTime := None |}.

(** A descriptor that carries nothing at all. *)
Definition blankFile : GeminiFile :=
  {| name := None;
     displayName := None;
     uri := None;
     mimeType := None;
     sizeBytes := None;
     state := None;
     createTime := None |}.

(** The descriptor the remote gives for an uploaded file of zero bytes. *)
Definition zeroByteFile : GeminiFile :=
  {| name := Some "files/empty";
     displayName := Some "empty.txt";
     uri := Some "https://generativelanguage.googleapis.com/v1beta/files/empty";
     mimeType := Some "text/plain";
     sizeBytes := Some (SizeString "0");
     state := Some "ACTIVE";
     createTime := Some "2024-01-01T00:00:00Z" |}.

(** The path U+00A0, SPACE: two characters of white space. *)
Definition blankPath : string :=
  String (ascii_of_nat 194) (String (ascii_of_nat 160) " ").

(** A remote whose client cannot be made. *)
Definition remoteUnreachable : Remote :=
  {| newGoogleGenAI := fun _ _ => Raised (JsError "API key missing");
     files_upload := fun _ _ _ => Returned Fixture.file1;
     files_list := fun _ _ => Returned Fixture.twoFiles;
     files_download := fun _ _ _ => Returned tt |}.

End Cases.

(* ================================================================== *)
(** ** Facts about the string primitives                               *)
(* ================================================================== *)

Module JsStringFacts.
Import JsString.

Lemma append_assoc (a b c : string) : (a ++ b) ++ c = a ++ b ++ c.
Proof.
  induction a as [|x a IH]; simpl; [reflexivity | now rewrite IH].
Qed.

Lemma append_empty_r (a : string) : a ++ EmptyString = a.
Proof.
  induction a as [|x a IH]; simpl; [reflexivity | now rewrite IH].
Qed.

Lemma startsWith_empty (s : string) : startsWith s EmptyString = true.
Proof. destruct s; reflexivity. Qed.

Lemma startsWith_append (p s : string) : startsWith (p ++ s) p = true.
Proof.
  induction p as [|x p IH]; simpl.
  - apply startsWith_empty.
  - now rewrite Ascii.eqb_refl, IH.
Qed.

Lemma startsWith_cancel (a s p : string) :
  startsWith (a ++ s) (a ++ p) = startsWith s p.
Proof.
  induction a as [|x a IH]; simpl; [reflexivity|].
  now rewrite Ascii.eqb_refl, IH.
Qed.

Lemma startsWith_weaken (s t p : string) :
  startsWith s p = true -> startsWith (s ++ t) p = true.
Proof.
  revert p; induction s as [|x s IH]; intros [|y p] H.
  - apply startsWith_empty.
  - discriminate.
  - apply startsWith_empty.
  - simpl in *. apply andb_true_iff in H as [Hx Hp].
    now rewrite Hx, (IH _ Hp).
Qed.

Lemma startsWith_spec (s p : string) :
  startsWith s p = true <-> exists rest, s = p ++ rest.
Proof.
  split.
  - revert s; induction p as [|y p IH]; intros s H.
    + now exists s.
    + destruct s as [|x s]; simpl in H; [discriminate|].
      apply andb_true_iff in H as [Hx Hp].
      apply Ascii.eqb_eq in Hx; subst y.
      destruct (IH _ Hp) as [rest ->]. now exists rest.
  - intros [rest ->]. apply startsWith_append.
Qed.

Lemma includes_here (s sub : string) :
  startsWith s sub = true -> includes s sub = true.
Proof. intro H. destruct s; simpl in *; now rewrite H. Qed.

Lemma includes_later (c : ascii) (s sub : string) :
  includes s sub = true -> includes (String c s) sub = true.
Proof. intro H. cbn [includes]. rewrite H. apply orb_true_r. Qed.

Lemma includes_skip (a b sub : string) :
  includes b sub = true -> includes (a ++ b) sub = true.
Proof.
  intro H. induction a as [|x a IH]; simpl append; [exact H|].
  now apply includes_later.
Qed.

Lemma includes_keep (a b sub : string) :
  includes a sub = true -> includes (a ++ b) sub = true.
Proof.
  induction a as [|x a IH]; intro H.
  - destruct sub; [apply includes_here, startsWith_empty | discriminate].
  - cbn [includes] in H. apply orb_true_iff in H as [H|H].
    + apply includes_here. now apply startsWith_weaken.
    + simpl append. apply includes_later. now apply IH.
Qed.

Lemma includes_self (s : string) : includes s s = true.
Proof.
  apply includes_here. rewrite <- (append_empty_r s) at 1.
  apply startsWith_append.
Qed.

Lemma includes_middle (a sub b : string) : includes (a ++ sub ++ b) sub = true.
Proof. apply includes_skip, includes_here, startsWith_append. Qed.

Lemma includes_join (sep x : string) (xs : list string) :
  In x xs -> includes (join sep xs) x = true.
Proof.
  induction xs as [|y ys IH]; [easy|].
  intros [->|Hin].
  - destruct ys; simpl; [apply includes_self|].
    apply includes_here, startsWith_append.
  - destruct ys as [|z zs]; [easy|].
    change (join sep (y :: z :: zs)) with (y ++ sep ++ join sep (z :: zs)).
    now apply includes_skip, includes_skip, IH.
Qed.

(** Nothing is left at the end exactly when nothing is left at the start. *)
Lemma trimEnd_blank (s : string) :
  trimEnd s = EmptyString <-> trimStart s = EmptyString.
Proof.
  destruct s as [|c r]; [easy|]. cbn [trimEnd].
  destruct (trimStart (String c r) =? EmptyString) eqn:E.
  - apply String.eqb_eq in E. easy.
  - apply String.eqb_neq in E. split; [discriminate | intro; contradiction].
Qed.

Lemma string_size_ind (P : string -> Prop) :
  (forall s, (forall r, String.length r < String.length s -> P r) -> P s) ->
  forall s, P s.
Proof.
  intros H s. remember (String.length s) as n eqn:Hn. revert s Hn.
  induction n as [n IH] using lt_wf_ind. intros s Hn. apply H.
  intros r Hr. apply (IH (String.length r)); [lia | reflexivity].
Qed.

Lemma isWhiteSpace_high (cp : N) : (65536 <= cp)%N -> isWhiteSpace cp = false.
Proof.
  intro H. unfold isWhiteSpace.
  repeat match goal with
         | |- context [N.eqb cp ?k] =>
             replace (N.eqb cp k) with false by (symmetry; apply N.eqb_neq; lia)
         end.
  replace (cp <=? 13)%N with false by (symmetry; apply N.leb_gt; lia).
  replace (cp <=? 8202)%N with false by (symmetry; apply N.leb_gt; lia).
  now rewrite !andb_false_r.
Qed.

(** Stripping the start a second time strips nothing more. *)
Lemma trimStart_fixed : forall s, trimStart (trimStart s) = trimStart s.
Proof.
  induction s as [s IH] using string_size_ind.
  destruct s as [|c1 r1]; [reflexivity|].
  cbn [trimStart]. destruct (oneByte c1) eqn:H1.
  { destruct (isWhiteSpace (byte c1)) eqn:Hw; [apply IH; cbn; lia|].
    cbn [trimStart]. now rewrite H1, Hw. }
  destruct r1 as [|c2 r2]; [cbn [trimStart]; now rewrite H1|].
  destruct (twoBytes c1 c2) eqn:H2.
  { destruct (isWhiteSpace (code2 c1 c2)) eqn:Hw; [apply IH; cbn; lia|].
    cbn [trimStart]. now rewrite H1, H2, Hw. }
  destruct r2 as [|c3 r3]; [cbn [trimStart]; now rewrite H1, H2|].
  destruct (threeBytes c1 c2 c3 && isWhiteSpace (code3 c1 c2 c3)) eqn:H3;
    [apply IH; cbn; lia|].
  cbn [trimStart]. now rewrite H1, H2, H3.
Qed.

Lemma join_app (sep : string) (xs ys : list string) :
  xs <> [] -> ys <> [] ->
  join sep (xs ++ ys)%list = join sep xs ++ sep ++ join sep ys.
Proof.
  intros Hx Hy. induction xs as [|x xs IH]; [easy|].
  destruct xs as [|x' xs].
  - destruct ys; [easy | reflexivity].
  - change (join sep ((x :: x' :: xs) ++ ys)%list)
      with (x ++ sep ++ join sep ((x' :: xs) ++ ys)%list).
    rewrite IH by discriminate.
    change (join sep (x :: x' :: xs)) with (x ++ sep ++ join sep (x' :: xs)).
    now rewrite !append_assoc.
Qed.

End JsStringFacts.

Module PathFacts.
Import JsString JsStringFacts.

Lemma absolute_not_blank (p : string) :
  Path.isAbsolute p = true -> (trim p =? EmptyString) = false.
Proof.
  destruct p as [|c p]; [discriminate|]. cbn [Path.isAbsolute]. intro H.
  apply Ascii.eqb_eq in H; subst c.
  apply String.eqb_neq. unfold trim.
  change (trimStart (String Path.slash p)) with (String Path.slash p).
  intro Hempty. apply trimEnd_blank in Hempty. discriminate Hempty.
Qed.

(** The canonical form of an absolute path: the root, then its canonical
    segments separated by "/". *)
Lemma resolve_absolute (cwd p : string) :
  Path.isAbsolute p = true ->
  Path.resolve cwd p = "/" ++ join Path.sep (Path.segments (p ++ "/")).
Proof.
  intro H. unfold Path.resolve.
  destruct p as [|c p]; [discriminate|].
  change (String c p =? EmptyString) with false. cbv iota.
  rewrite H. reflexivity.
Qed.

(** A path whose canonical segments continue those of a root that has at
    least one segment is nested under it. *)
Lemma segments_nested (cwd root p : string) (more : list string) :
  Path.isAbsolute root = true -> Path.isAbsolute p = true ->
  Path.segments (root ++ "/") <> [] -> more <> [] ->
  Path.segments (p ++ "/") = (Path.segments (root ++ "/") ++ more)%list ->
  exists rest, Path.resolve cwd p = Path.resolve cwd root ++ Path.sep ++ rest.
Proof.
  intros Hr Hp Hne Hmore Hseg.
  rewrite (resolve_absolute _ _ Hr), (resolve_absolute _ _ Hp), Hseg.
  rewrite join_app by assumption.
  exists (join Path.sep more). now rewrite !append_assoc.
Qed.

End PathFacts.

(* ================================================================== *)
(** ** Validation: the order of the checks                             *)
(* ================================================================== *)

Module ValidationFacts.
Import JsString JsStringFacts PathFacts Spec.

Lemma build_of_validate cfg fs p m :
  UploadFile.validateToolParamValues cfg fs p = Some m ->
  UploadFile.build cfg fs p = Raised (JsError m).
Proof. unfold UploadFile.build, buildWith. now intros ->. Qed.

(** The validator returns the message of the first rule that rejects. *)
Lemma validate_first_rejection cfg fs p m :
  firstRejection (uploadRules cfg fs (UploadFile.absolute_path p)) = Some m ->
  UploadFile.validateToolParamValues cfg fs p = Some m.
Proof.
  unfold uploadRules, UploadFile.validateToolParamValues, UploadFile.checkFile.
  cbn [firstRejection].
  destruct (trim (UploadFile.absolute_path p) =? EmptyString); [easy|].
  destruct (Path.isAbsolute (UploadFile.absolute_path p)); cbn [negb]; [|easy].
  destruct (negb (isPathWithinWorkspace _ _) && negb (UploadFile.isWithinTempDir _ _ _));
    [easy|].
  destruct (shouldGeminiIgnoreFile cfg _); [easy|].
  destruct (existsSync fs _); cbn [negb]; [|easy].
  destruct (lstatSync fs _) as [stats|e]; [|easy].
  destruct (isFile stats); cbn [negb]; easy.
Qed.

(** The path checks do not look at the authentication mode. *)
Lemma uploadRules_mode cfg cg fs path :
  uploadRules (withContentGenerator cfg cg) fs path = uploadRules cfg fs path.
Proof. reflexivity. Qed.

(** Within the temp directory, in the code's own terms. *)
Lemma nested_isWithinTempDir fs root p :
  equalOrNestedUnder fs root p -> UploadFile.isWithinTempDir fs root p = true.
Proof.
  unfold equalOrNestedUnder, UploadFile.isWithinTempDir.
  intros [Heq | [rest Hrest]]; apply orb_true_iff.
  - right. rewrite Heq. apply String.eqb_refl.
  - left. rewrite Hrest, <- append_assoc. apply startsWith_append.
Qed.

End ValidationFacts.

Import JsString JsStringFacts PathFacts Spec ValidationFacts.

(** C1, as the specification states it, does not hold: in Vertex AI mode a
    parameter set whose path fails a path check does not always make [build]
    raise the capability-unavailable fault.  The path "relative/path.txt" in
    Vertex AI mode raises the must-be-absolute fault. *)
Lemma upload_auth_gate_not_first :
  ~ (forall cfg fs p,
        truthyFlag (vertexai (getContentGeneratorConfig cfg)) = true ->
        firstRejection (uploadRules cfg fs (UploadFile.absolute_path p)) <> None ->
        UploadFile.build cfg fs p = Raised (JsError UploadFile.vertexMessage)).
Proof.
  intro H.
  specialize (H Fixture.vertexConfig Fixture.disk
                (Fixture.uploadParams "relative/path.txt") eq_refl).
  assert (Hrule : firstRejection
                    (uploadRules Fixture.vertexConfig Fixture.disk "relative/path.txt")
                  <> None) by (vm_compute; discriminate).
  specialize (H Hrule). vm_compute in H. discriminate H.
Qed.

(** C1 (amended): in the upload tool the authorization-mode check runs after
    the path checks.  In Vertex AI mode [build] always raises; the fault is
    the one the parameters get in the Gemini API mode when they are rejected
    there (the fault of the first path check that fails), and the
    capability-unavailable fault exactly when they would build there. *)
Theorem upload_auth_gate_after_path_checks :
  forall cfg fs p,
    truthyFlag (vertexai (getContentGeneratorConfig cfg)) = true ->
    UploadFile.build cfg fs p =
      match UploadFile.build (withContentGenerator cfg geminiMode) fs p with
      | Raised fault => Raised fault
      | Returned _ => Raised (JsError UploadFile.vertexMessage)
      end
    /\ (forall m,
          firstRejection (uploadRules cfg fs (UploadFile.absolute_path p)) = Some m ->
          UploadFile.build cfg fs p = Raised (JsError m)).
Proof.
  intros cfg fs p Hvertex. split.
  - unfold UploadFile.build, buildWith, UploadFile.validateToolParamValues.
    cbn [withContentGenerator getContentGeneratorConfig getWorkspaceContext
         getProjectTempDir shouldGeminiIgnoreFile geminiMode vertexai authType
         truthyFlag authTypeIsNot AuthType_eqb negb andb].
    rewrite Hvertex.
    destruct (trim (UploadFile.absolute_path p) =? EmptyString); [reflexivity|].
    destruct (negb (Path.isAbsolute _)); [reflexivity|].
    destruct (negb (isPathWithinWorkspace _ _) && negb (UploadFile.isWithinTempDir _ _ _));
      [reflexivity|].
    destruct (shouldGeminiIgnoreFile cfg _); [reflexivity|].
    destruct (UploadFile.checkFile fs _) as [[rejection|]|e]; reflexivity.
  - intros m Hm. now apply build_of_validate, validate_first_rejection.
Qed.

Lemma upload_auth_gate_after_path_checks_witness :
  UploadFile.build Fixture.vertexConfig Fixture.disk
    (Fixture.uploadParams "/home/user/project/test.txt")
  = Raised (JsError UploadFile.vertexMessage)
  /\ UploadFile.build Fixture.vertexConfig Fixture.disk
       (Fixture.uploadParams "/home/user/project/none.txt")
     = Raised (JsError (UploadFile.missingMessage "/home/user/project/none.txt")).
Proof.
  split.
  - exact (proj1 (upload_auth_gate_after_path_checks Fixture.vertexConfig Fixture.disk
                    (Fixture.uploadParams "/home/user/project/test.txt") eq_refl)).
  - apply (proj2 (upload_auth_gate_after_path_checks Fixture.vertexConfig Fixture.disk
                    (Fixture.uploadParams "/home/user/project/none.txt") eq_refl)).
    reflexivity.
Defined.

(** C2: the upload validator applies the sandbox rules in the order empty
    path, not absolute, outside every root, ignored, missing, not a regular
    file, and returns the message of the first rule that rejects: no later
    rule matters once an earlier one rejects, and [build] raises that
    message.  The not-absolute message repeats the path given; the
    containment message lists every workspace root and the temp root. *)
Theorem upload_first_rejection_wins :
  forall cfg fs p m,
    firstRejection (uploadRules cfg fs (UploadFile.absolute_path p)) = Some m ->
    UploadFile.validateToolParamValues cfg fs p = Some m
    /\ UploadFile.build cfg fs p = Raised (JsError m)
    /\ includes (UploadFile.relativeMessage (UploadFile.absolute_path p))
                (UploadFile.absolute_path p) = true
    /\ (forall dir, In dir (getDirectories (getWorkspaceContext cfg)) ->
          includes (UploadFile.outsideMessage
                      (getDirectories (getWorkspaceContext cfg))
                      (getProjectTempDir cfg)) dir = true)
    /\ includes (UploadFile.outsideMessage
                   (getDirectories (getWorkspaceContext cfg))
                   (getProjectTempDir cfg)) (getProjectTempDir cfg) = true.
Proof.
  intros cfg fs p m Hm.
  pose proof (validate_first_rejection _ _ _ _ Hm) as Hv.
  repeat split.
  - exact Hv.
  - now apply build_of_validate.
  - apply includes_middle.
  - intros dir Hin. unfold UploadFile.outsideMessage.
    apply includes_skip, includes_keep. now apply includes_join.
  - unfold UploadFile.outsideMessage.
    apply includes_skip, includes_skip, includes_skip, includes_self.
Qed.

Lemma upload_first_rejection_wins_witness :
  UploadFile.validateToolParamValues Fixture.geminiConfig Fixture.disk
    (Fixture.uploadParams "/outside/root.txt")
  = Some (UploadFile.outsideMessage [Fixture.root] Fixture.tempDir).
Proof.
  apply (upload_first_rejection_wins Fixture.geminiConfig Fixture.disk
           (Fixture.uploadParams "/outside/root.txt")).
  reflexivity.
Defined.

(** C3: an absolute path that equals the project temp directory or is nested
    under it passes the containment check whatever the workspace roots are:
    neither the upload validator (source path) nor the download validator
    (target path) answers with the containment message, and when the other
    checks pass [build] returns the invocation. *)
Theorem temp_dir_carve_out :
  forall cfg fs path,
    Path.isAbsolute path = true ->
    equalOrNestedUnder fs (getProjectTempDir cfg) path ->
    (forall display,
        let p := {| UploadFile.absolute_path := path;
                    UploadFile.display_name := display |} in
        UploadFile.validateToolParamValues cfg fs p
          <> Some (UploadFile.outsideMessage
                     (getDirectories (getWorkspaceContext cfg))
                     (getProjectTempDir cfg))
        /\ (shouldGeminiIgnoreFile cfg path = false ->
            existsSync fs path = true ->
            lstatSync fs path = Returned {| isFile := true |} ->
            supported (getContentGeneratorConfig cfg) = true ->
            UploadFile.build cfg fs p = Returned (UploadFile.createInvocation cfg p)))
    /\ (forall fileUri,
          let p := {| DownloadFile.file_uri := fileUri;
                      DownloadFile.download_path := path |} in
          DownloadFile.validateToolParamValues cfg fs p
            <> Some (DownloadFile.outsideMessage
                       (getDirectories (getWorkspaceContext cfg))
                       (getProjectTempDir cfg))
          /\ (fileUri <> EmptyString ->
              truthyFlag (vertexai (getContentGeneratorConfig cfg)) = false ->
              existsSync fs (Path.dirname path) = true ->
              DownloadFile.build cfg fs p
                = Returned (DownloadFile.createInvocation cfg p))).
Proof.
  intros cfg fs path Habs Htemp.
  pose proof (nested_isWithinTempDir _ _ _ Htemp) as Hin.
  pose proof (absolute_not_blank _ Habs) as Hblank.
  split.
  - intros display p. subst p. split.
    + unfold UploadFile.validateToolParamValues, UploadFile.checkFile.
      cbn [UploadFile.absolute_path].
      rewrite Hblank, Habs, Hin. cbn [negb]. rewrite andb_false_r.
      destruct (shouldGeminiIgnoreFile cfg path); [discriminate|].
      destruct (existsSync fs path); cbn [negb]; [|discriminate].
      destruct (lstatSync fs path) as [stats|e]; [|discriminate].
      destruct (isFile stats); cbn [negb]; [|discriminate].
      destruct (truthyFlag _); [discriminate|].
      destruct (authTypeIsNot _ _ && authTypeIsNot _ _); discriminate.
    + intros Hign Hex Hstat Hsup.
      unfold supported in Hsup. apply andb_true_iff in Hsup as [Hv Ha].
      apply negb_true_iff in Hv, Ha.
      unfold UploadFile.build, buildWith, UploadFile.validateToolParamValues,
        UploadFile.checkFile.
      cbn [UploadFile.absolute_path].
      rewrite Hblank, Habs, Hin. cbn [negb]. rewrite andb_false_r.
      rewrite Hign, Hex, Hstat. cbn [negb isFile]. now rewrite Hv, Ha.
  - intros fileUri p. subst p.
    assert (Hin' : DownloadFile.isWithinTempDir fs (getProjectTempDir cfg) path = true)
      by exact Hin.
    assert (Hne : (path =? EmptyString) = false)
      by (destruct path; [discriminate | reflexivity]).
    split.
    + unfold DownloadFile.validateToolParamValues.
      cbn [DownloadFile.file_uri DownloadFile.download_path].
      rewrite Hne, Habs, Hin'. cbn [negb]. rewrite andb_false_r.
      destruct (fileUri =? EmptyString); [discriminate|].
      destruct (truthyFlag _); [discriminate|].
      destruct (negb (existsSync fs _)); discriminate.
    + intros Huri Hv Hparent. apply String.eqb_neq in Huri.
      unfold DownloadFile.build, buildWith, DownloadFile.validateToolParamValues.
      cbn [DownloadFile.file_uri DownloadFile.download_path].
      rewrite Huri, Hne, Hv, Habs, Hin', Hparent. cbn [negb].
      now rewrite andb_false_r.
Qed.

Lemma temp_dir_carve_out_witness :
  isPathWithinWorkspace Fixture.workspace "/home/user/.gemini/tmp/abc/sub/../temp-file.txt"
    = false
  /\ UploadFile.validateToolParamValues Fixture.geminiConfig Fixture.disk
       (Fixture.uploadParams "/home/user/.gemini/tmp/abc/sub/../temp-file.txt")
     <> Some (UploadFile.outsideMessage [Fixture.root] Fixture.tempDir)
  /\ DownloadFile.build Fixture.geminiConfig Fixture.disk
       (Fixture.downloadParams "/home/user/.gemini/tmp/abc/downloaded.txt")
     = Returned (DownloadFile.createInvocation Fixture.geminiConfig
                   (Fixture.downloadParams "/home/user/.gemini/tmp/abc/downloaded.txt")).
Proof.
  split; [reflexivity|]. split.
  - apply (temp_dir_carve_out Fixture.geminiConfig Fixture.disk
             "/home/user/.gemini/tmp/abc/sub/../temp-file.txt" eq_refl).
    right. exists "temp-file.txt". reflexivity.
  - apply (temp_dir_carve_out Fixture.geminiConfig Fixture.disk
             "/home/user/.gemini/tmp/abc/downloaded.txt" eq_refl).
    + right. exists "downloaded.txt". reflexivity.
    + discriminate.
    + reflexivity.
    + reflexivity.
Defined.

(* ================================================================== *)
(** ** Execution: what a run returns                                   *)
(* ================================================================== *)

Module ExecuteFacts.

(** Draining a remote sequence ends: with its failure if it throws, and
    with the descriptors in the order it yielded them otherwise. *)
Lemma forAwait_run (p : Pager) :
  forall files log, exists log',
    forAwait p files log =
      (match pagerFault p with
       | Some e => Raised e
       | None => Returned (files ++ pagerFiles p)%list
       end, log').
Proof.
  induction p as [|file rest IH|e]; intros files log.
  - eexists. cbn. now rewrite app_nil_r.
  - destruct (IH (files ++ [file])%list (log ++ [CallNext])%list) as [log' Hrun].
    exists log'. cbn [forAwait pagerFault pagerFiles].
    unfold bind, remoteCall at 1. rewrite Hrun.
    now rewrite <- app_assoc.
  - eexists. reflexivity.
Qed.

(** A run of the upload in Vertex AI mode: the log is left as it was. *)
Lemma upload_vertex_run inv remote signal log :
  truthyFlag (vertexai (getContentGeneratorConfig (UploadFile.config inv))) = true ->
  UploadFile.execute inv remote signal log
    = (Returned (errorResult UploadFile.vertexMessage UPLOAD_NOT_SUPPORTED), log).
Proof. intro Hv. unfold UploadFile.execute. now rewrite Hv. Qed.

(** A run of the listing in Vertex AI mode. *)
Lemma list_vertex_run inv remote signal log :
  truthyFlag (vertexai (getContentGeneratorConfig (ListFiles.config inv))) = true ->
  ListFiles.execute inv remote signal log
    = (Returned (errorResult ListFiles.vertexMessage DOWNLOAD_NOT_SUPPORTED), log).
Proof. intro Hv. unfold ListFiles.execute. now rewrite Hv. Qed.

(** A run of the upload outside Vertex AI mode. *)
Lemma upload_run inv remote signal log :
  truthyFlag (vertexai (getContentGeneratorConfig (UploadFile.config inv))) = false ->
  exists log',
    UploadFile.execute inv remote signal log =
      (Returned
         (let cg := getContentGeneratorConfig (UploadFile.config inv) in
          let path := UploadFile.absolute_path (UploadFile.params inv) in
          match newGoogleGenAI remote (clientKey cg) (vertexai cg) with
          | Raised e =>
              errorResult (UploadFile.failureMessage path (getErrorMessage e))
                          FILE_UPLOAD_FAILURE
          | Returned _ =>
              match files_upload remote path
                      (UploadFile.display_name (UploadFile.params inv)) signal with
              | Raised e =>
                  errorResult (UploadFile.failureMessage path (getErrorMessage e))
                              FILE_UPLOAD_FAILURE
              | Returned file => successResult (UploadFile.successMessage path file)
              end
          end), log').
Proof.
  intro Hv. unfold UploadFile.execute, tryCatch, bind, remoteCall, ret, clientKey.
  rewrite Hv. cbv zeta.
  destruct (newGoogleGenAI remote _ _) as [[]|e]; [|eexists; reflexivity].
  destruct (files_upload remote _ _ _) as [file|e]; eexists; reflexivity.
Qed.

(** A run of the listing outside Vertex AI mode. *)
Lemma list_run inv remote signal log :
  truthyFlag (vertexai (getContentGeneratorConfig (ListFiles.config inv))) = false ->
  exists log',
    ListFiles.execute inv remote signal log =
      (Returned
         (let cg := getContentGeneratorConfig (ListFiles.config inv) in
          match newGoogleGenAI remote (clientKey cg) (vertexai cg) with
          | Raised e =>
              errorResult (ListFiles.failureMessage (getErrorMessage e))
                          FILE_LIST_FAILURE
          | Returned _ =>
              match files_list remote (ListFiles.page_size (ListFiles.params inv))
                      signal with
              | Raised e =>
                  errorResult (ListFiles.failureMessage (getErrorMessage e))
                              FILE_LIST_FAILURE
              | Returned pager =>
                  match pagerFault pager with
                  | Some e =>
                      errorResult (ListFiles.failureMessage (getErrorMessage e))
                                  FILE_LIST_FAILURE
                  | None =>
                      match pagerFiles pager with
                      | [] => successResult ListFiles.emptyMessage
                      | files => successResult (ListFiles.successMessage files)
                      end
                  end
              end
          end), log').
Proof.
  intro Hv. unfold ListFiles.execute, tryCatch, bind, remoteCall, ret, clientKey.
  rewrite Hv. cbv zeta.
  destruct (newGoogleGenAI remote _ _) as [[]|e]; [|eexists; reflexivity].
  destruct (files_list remote _ _) as [pager|e]; [|eexists; reflexivity].
  match goal with
  | |- context [forAwait pager [] ?l] =>
      destruct (forAwait_run pager [] l) as [log' ->]
  end.
  destruct (pagerFault pager) as [e|]; [eexists; reflexivity|].
  cbn [app]. destruct (pagerFiles pager); eexists; reflexivity.
Qed.

(** A run of the download. *)
Lemma download_run inv remote signal log :
  exists log',
    DownloadFile.execute inv remote signal log =
      (Returned
         (let uri := DownloadFile.file_uri (DownloadFile.params inv) in
          match downloadFault inv remote signal with
          | Some e =>
              errorResult (DownloadFile.failureMessage uri (getErrorMessage e))
                          FILE_DOWNLOAD_FAILURE
          | None =>
              successResult
                (DownloadFile.successMessage uri
                   (DownloadFile.download_path (DownloadFile.params inv)))
          end), log').
Proof.
  unfold DownloadFile.execute, downloadFault, tryCatch, bind, remoteCall, ret,
    clientKey.
  cbv zeta.
  destruct (newGoogleGenAI remote _ _) as [[]|e]; [|eexists; reflexivity].
  destruct (files_download remote _ _ _) as [[]|e]; eexists; reflexivity.
Qed.

End ExecuteFacts.

Import ExecuteFacts.

(** C4: [execute] never raises.  For the upload, the listing and the
    download, every run returns a ToolResult; when the remote file manager
    fails (the client cannot be made, the call is rejected, the listing
    breaks before or after its first descriptor) the result carries an error
    of the kind FILE_UPLOAD_FAILURE, FILE_LIST_FAILURE or
    FILE_DOWNLOAD_FAILURE with the underlying message. *)
Theorem execute_never_raises :
  forall remote signal log,
    (forall inv, exists r log',
        UploadFile.execute inv remote signal log = (Returned r, log')
        /\ forall e,
            truthyFlag (vertexai (getContentGeneratorConfig (UploadFile.config inv)))
              = false ->
            uploadFault inv remote signal = Some e ->
            r = errorResult
                  (UploadFile.failureMessage
                     (UploadFile.absolute_path (UploadFile.params inv))
                     (getErrorMessage e))
                  FILE_UPLOAD_FAILURE)
    /\ (forall inv, exists r log',
          ListFiles.execute inv remote signal log = (Returned r, log')
          /\ forall e,
              truthyFlag (vertexai (getContentGeneratorConfig (ListFiles.config inv)))
                = false ->
              listFault inv remote signal = Some e ->
              r = errorResult (ListFiles.failureMessage (getErrorMessage e))
                              FILE_LIST_FAILURE)
    /\ (forall inv, exists r log',
          DownloadFile.execute inv remote signal log = (Returned r, log')
          /\ forall e,
              downloadFault inv remote signal = Some e ->
              r = errorResult
                    (DownloadFile.failureMessage
                       (DownloadFile.file_uri (DownloadFile.params inv))
                       (getErrorMessage e))
                    FILE_DOWNLOAD_FAILURE).
Proof.
  intros remote signal log. split; [|split]; intro inv.
  - destruct (truthyFlag (vertexai (getContentGeneratorConfig (UploadFile.config inv))))
      eqn:Hv.
    + unfold UploadFile.execute. rewrite Hv.
      eexists; eexists; split; [reflexivity | discriminate].
    + destruct (upload_run inv remote signal log Hv) as [log' Hrun].
      eexists; exists log'; split; [exact Hrun|].
      intros e _ Hfault. unfold uploadFault in Hfault. cbv zeta in *.
      destruct (newGoogleGenAI remote _ _) as [[]|e1]; [|now inversion Hfault].
      destruct (files_upload remote _ _ _) as [file|e1]; [discriminate|].
      now inversion Hfault.
  - destruct (truthyFlag (vertexai (getContentGeneratorConfig (ListFiles.config inv))))
      eqn:Hv.
    + unfold ListFiles.execute. rewrite Hv.
      eexists; eexists; split; [reflexivity | discriminate].
    + destruct (list_run inv remote signal log Hv) as [log' Hrun].
      eexists; exists log'; split; [exact Hrun|].
      intros e _ Hfault. unfold listFault in Hfault. cbv zeta in *.
      destruct (newGoogleGenAI remote _ _) as [[]|e1]; [|now inversion Hfault].
      destruct (files_list remote _ _) as [pager|e1]; [|now inversion Hfault].
      now rewrite Hfault.
  - destruct (download_run inv remote signal log) as [log' Hrun].
    eexists; exists log'; split; [exact Hrun|].
    intros e Hfault. cbv zeta. now rewrite Hfault.
Qed.

Lemma execute_never_raises_witness :
  exists r log',
    ListFiles.execute
      (ListFiles.createInvocation Fixture.geminiConfig (Fixture.pageSize None))
      (Fixture.remoteWith Fixture.file1 Fixture.brokenListing) Fixture.signal []
    = (Returned r, log')
    /\ option_map type (error r) = Some FILE_LIST_FAILURE.
Proof.
  destruct (proj1 (proj2 (execute_never_raises
                            (Fixture.remoteWith Fixture.file1 Fixture.brokenListing)
                            Fixture.signal []))
              (ListFiles.createInvocation Fixture.geminiConfig (Fixture.pageSize None)))
    as (r & log' & Hrun & Hkind).
  exists r, log'. split; [exact Hrun|].
  rewrite (Hkind (JsError "connection reset") eq_refl eq_refl). reflexivity.
Defined.

(** C10: when the configuration reports Vertex AI at [execute] time, the
    upload and the listing return an error result at once: the log of remote
    calls is unchanged (no client is made, nothing is asked of the remote
    file manager).  The upload tags the error UPLOAD_NOT_SUPPORTED; the
    listing tags it DOWNLOAD_NOT_SUPPORTED, not a kind of its own. *)
Theorem execute_vertex_gate :
  forall remote signal log,
    (forall inv,
        truthyFlag (vertexai (getContentGeneratorConfig (UploadFile.config inv))) = true ->
        UploadFile.execute inv remote signal log
          = (Returned (errorResult UploadFile.vertexMessage UPLOAD_NOT_SUPPORTED), log))
    /\ (forall inv,
          truthyFlag (vertexai (getContentGeneratorConfig (ListFiles.config inv))) = true ->
          ListFiles.execute inv remote signal log
            = (Returned (errorResult ListFiles.vertexMessage DOWNLOAD_NOT_SUPPORTED), log)).
Proof.
  intros remote signal log. split; intros inv Hv.
  - now apply upload_vertex_run.
  - now apply list_vertex_run.
Qed.

Lemma execute_vertex_gate_witness :
  UploadFile.execute
    (UploadFile.createInvocation Fixture.vertexConfig
       (Fixture.uploadParams "/home/user/project/test.txt"))
    Fixture.remoteDown Fixture.signal []
  = (Returned (errorResult UploadFile.vertexMessage UPLOAD_NOT_SUPPORTED), [])
  /\ ListFiles.execute
       (ListFiles.createInvocation Fixture.vertexConfig (Fixture.pageSize None))
       Fixture.remoteDown Fixture.signal []
     = (Returned (errorResult ListFiles.vertexMessage DOWNLOAD_NOT_SUPPORTED), []).
Proof.
  split.
  - apply (proj1 (execute_vertex_gate Fixture.remoteDown Fixture.signal [])).
    reflexivity.
  - apply (proj2 (execute_vertex_gate Fixture.remoteDown Fixture.signal [])).
    reflexivity.
Defined.

(** C5, as the specification states it, does not hold: an error result need
    not include the word "Error".  The upload run in Vertex AI mode returns
    an error whose content and display are the not-supported sentence. *)
Lemma error_result_without_the_word_Error :
  ~ (forall inv remote signal log r log',
        UploadFile.execute inv remote signal log = (Returned r, log') ->
        error r <> None ->
        includes (llmContent r) "Error" = true
        /\ includes (returnDisplay r) "Error" = true).
Proof.
  intro H.
  destruct (H (UploadFile.createInvocation Fixture.vertexConfig
                 (Fixture.uploadParams "/home/user/project/test.txt"))
              Fixture.remoteDown Fixture.signal []
              (errorResult UploadFile.vertexMessage UPLOAD_NOT_SUPPORTED) []
              eq_refl) as [Hllm _].
  - discriminate.
  - vm_compute in Hllm. discriminate Hllm.
Qed.

(** C5 (amended): in every result of an upload or a listing in which [error]
    is set, the content and the display both equal the error message.  When
    the error is a caught failure (FILE_UPLOAD_FAILURE, FILE_LIST_FAILURE)
    that message starts with the word "Error" and includes the underlying
    failure message; when it is the Vertex AI refusal of [execute]
    (UPLOAD_NOT_SUPPORTED, and DOWNLOAD_NOT_SUPPORTED for the listing) it is
    the not-supported sentence, which does not include the word "Error". *)
Theorem error_results_carry_message :
  forall remote signal log,
    (forall inv r log' err,
        UploadFile.execute inv remote signal log = (Returned r, log') ->
        error r = Some err ->
        llmContent r = message err /\ returnDisplay r = message err
        /\ ((type err = UPLOAD_NOT_SUPPORTED
             /\ message err = UploadFile.vertexMessage
             /\ includes (message err) "Error" = false)
            \/ (type err = FILE_UPLOAD_FAILURE
                /\ exists e,
                    uploadFault inv remote signal = Some e
                    /\ startsWith (message err) "Error" = true
                    /\ includes (message err) "Error" = true
                    /\ includes (message err) (getErrorMessage e) = true)))
    /\ (forall inv r log' err,
          ListFiles.execute inv remote signal log = (Returned r, log') ->
          error r = Some err ->
          llmContent r = message err /\ returnDisplay r = message err
          /\ ((type err = DOWNLOAD_NOT_SUPPORTED
               /\ message err = ListFiles.vertexMessage
               /\ includes (message err) "Error" = false)
              \/ (type err = FILE_LIST_FAILURE
                  /\ exists e,
                      listFault inv remote signal = Some e
                      /\ startsWith (message err) "Error" = true
                      /\ includes (message err) "Error" = true
                      /\ includes (message err) (getErrorMessage e) = true))).
Proof.
  intros remote signal log. split; intros inv r log' err Hrun Herr.
  - destruct (truthyFlag (vertexai (getContentGeneratorConfig (UploadFile.config inv))))
      eqn:Hv.
    + rewrite (upload_vertex_run inv remote signal log Hv) in Hrun.
      inversion Hrun; subst r log'. cbn in Herr. inversion Herr; subst err.
      cbn [llmContent returnDisplay message type errorResult].
      split; [reflexivity|]. split; [reflexivity|].
      left. split; [reflexivity|]. split; [reflexivity|]. vm_compute. reflexivity.
    + destruct (upload_run inv remote signal log Hv) as [log1 Hrun1].
      rewrite Hrun1 in Hrun. inversion Hrun as [[Hr Hlog]]. clear Hrun Hrun1.
      unfold uploadFault. cbv zeta in *.
      destruct (newGoogleGenAI remote _ _) as [[]|e];
        [destruct (files_upload remote _ _ _) as [file|e]|];
        subst r; unfold errorResult, successResult in *;
        cbn [error llmContent returnDisplay] in *; try discriminate;
        inversion Herr; subst err; cbn [message type];
        (split; [reflexivity|]; split; [reflexivity|];
         right; split; [reflexivity|]; exists e;
         split; [reflexivity|]; split; [reflexivity|];
         split; [apply includes_here; reflexivity|];
         unfold UploadFile.failureMessage;
         do 3 apply includes_skip; apply includes_self).
  - destruct (truthyFlag (vertexai (getContentGeneratorConfig (ListFiles.config inv))))
      eqn:Hv.
    + rewrite (list_vertex_run inv remote signal log Hv) in Hrun.
      inversion Hrun; subst r log'. cbn in Herr. inversion Herr; subst err.
      cbn [llmContent returnDisplay message type errorResult].
      split; [reflexivity|]. split; [reflexivity|].
      left. split; [reflexivity|]. split; [reflexivity|]. vm_compute. reflexivity.
    + destruct (list_run inv remote signal log Hv) as [log1 Hrun1].
      rewrite Hrun1 in Hrun. inversion Hrun as [[Hr Hlog]]. clear Hrun Hrun1.
      unfold listFault. cbv zeta in *.
      destruct (newGoogleGenAI remote _ _) as [[]|e];
        [destruct (files_list remote _ _) as [pager|e];
         [destruct (pagerFault pager) as [e|]; [|destruct (pagerFiles pager)]|]|];
        subst r; unfold errorResult, successResult in *;
        cbn [error llmContent returnDisplay] in *; try discriminate;
        inversion Herr; subst err; cbn [message type];
        (split; [reflexivity|]; split; [reflexivity|];
         right; split; [reflexivity|]; exists e;
         split; [reflexivity|]; split; [reflexivity|];
         split; [apply includes_here; reflexivity|];
         unfold ListFiles.failureMessage;
         apply includes_skip; apply includes_self).
Qed.

Lemma error_results_carry_message_witness :
  llmContent
    (errorResult
       (UploadFile.failureMessage "/home/user/project/test.txt" "Upload failed")
       FILE_UPLOAD_FAILURE)
  = "Error uploading file '/home/user/project/test.txt': Upload failed".
Proof.
  exact (proj1 (proj1 (error_results_carry_message Fixture.remoteDown Fixture.signal [])
                  (UploadFile.createInvocation Fixture.geminiConfig
                     (Fixture.uploadParams "/home/user/project/test.txt"))
                  (errorResult
                     (UploadFile.failureMessage "/home/user/project/test.txt"
                        "Upload failed")
                     FILE_UPLOAD_FAILURE)
                  [CallNewGoogleGenAI (Some "test-api-key") (Some false);
                   CallUpload "/home/user/project/test.txt" None Fixture.signal]
                  {| message := UploadFile.failureMessage "/home/user/project/test.txt"
                                  "Upload failed";
                     type := FILE_UPLOAD_FAILURE |}
                  eq_refl eq_refl)).
Defined.

(** C6: the listing validator rejects every page size that is not positive,
    0 and -1 among them, with one and the same message, whatever the
    configuration; in a mode that supports the tool it accepts every
    positive page size, 1 among them, and an absent page size. *)
Theorem list_page_size_boundary :
  forall cfg,
    (forall n, leZero n = true ->
        ListFiles.build cfg {| ListFiles.page_size := Some n |}
          = Raised (JsError ListFiles.pageSizeMessage))
    /\ (forall q, (q <= 0)%Q <-> leZero (Finite q) = true)
    /\ ListFiles.build cfg {| ListFiles.page_size := Some (Finite 0) |}
         = Raised (JsError ListFiles.pageSizeMessage)
    /\ ListFiles.build cfg {| ListFiles.page_size := Some (Finite (-1 # 1)) |}
         = Raised (JsError ListFiles.pageSizeMessage)
    /\ (forall q, (0 < q)%Q <-> gtZero (Finite q) = true)
    /\ (supported (getContentGeneratorConfig cfg) = true ->
        (forall n, gtZero n = true ->
            ListFiles.build cfg {| ListFiles.page_size := Some n |}
              = Returned (ListFiles.createInvocation cfg
                            {| ListFiles.page_size := Some n |}))
        /\ ListFiles.build cfg {| ListFiles.page_size := Some (Finite 1) |}
             = Returned (ListFiles.createInvocation cfg
                           {| ListFiles.page_size := Some (Finite 1) |})
        /\ ListFiles.build cfg {| ListFiles.page_size := None |}
             = Returned (ListFiles.createInvocation cfg
                           {| ListFiles.page_size := None |})).
Proof.
  intro cfg.
  assert (Hreject : forall n, leZero n = true ->
            ListFiles.build cfg {| ListFiles.page_size := Some n |}
              = Raised (JsError ListFiles.pageSizeMessage)).
  { intros n Hn. unfold ListFiles.build, buildWith, ListFiles.validateToolParamValues.
    cbn [ListFiles.page_size]. now rewrite Hn. }
  assert (Hpos : forall q, (0 < q)%Q <-> gtZero (Finite q) = true).
  { intro q. cbn [gtZero]. rewrite negb_true_iff. split.
    - intro Hq. destruct (Qle_bool q 0) eqn:Hle; [|reflexivity].
      apply Qle_bool_iff in Hle. now apply Qlt_not_le in Hq.
    - intro Hle. apply Qnot_le_lt. intro Hq.
      apply Qle_bool_iff in Hq. congruence. }
  split; [exact Hreject|].
  split; [intro q; symmetry; apply Qle_bool_iff|].
  split; [now apply Hreject|].
  split; [now apply Hreject|].
  split; [exact Hpos|].
  intro Hsup. unfold supported in Hsup.
  apply andb_true_iff in Hsup as [Hv Ha]. apply negb_true_iff in Hv, Ha.
  assert (Haccept : forall n, gtZero n = true ->
            ListFiles.build cfg {| ListFiles.page_size := Some n |}
              = Returned (ListFiles.createInvocation cfg
                            {| ListFiles.page_size := Some n |})).
  { intros n Hn.
    assert (Hle : leZero n = false).
    { destruct n; cbn in *; try congruence. now apply negb_true_iff. }
    unfold ListFiles.build, buildWith, ListFiles.validateToolParamValues.
    cbn [ListFiles.page_size]. now rewrite Hle, Hv, Ha. }
  split; [exact Haccept|]. split.
  - now apply Haccept.
  - unfold ListFiles.build, buildWith, ListFiles.validateToolParamValues.
    cbn [ListFiles.page_size]. now rewrite Hv, Ha.
Qed.

Lemma list_page_size_boundary_witness :
  ListFiles.build Fixture.geminiConfig {| ListFiles.page_size := Some NegInfinity |}
    = Raised (JsError ListFiles.pageSizeMessage)
  /\ ListFiles.build Fixture.geminiConfig {| ListFiles.page_size := Some (Finite (1 # 2)) |}
     = Returned (ListFiles.createInvocation Fixture.geminiConfig
                   {| ListFiles.page_size := Some (Finite (1 # 2)) |}).
Proof.
  split.
  - apply (proj1 (list_page_size_boundary Fixture.geminiConfig)). reflexivity.
  - apply (proj2 (proj2 (proj2 (proj2 (proj2
             (list_page_size_boundary Fixture.geminiConfig)))))).
    + reflexivity.
    + reflexivity.
Defined.

(** C7, as the specification states it, does not hold: the content for an
    empty listing is not exactly the phrase "No files found".  A listing
    that ends without a descriptor gives a success result whose content is
    a longer sentence. *)
Lemma empty_listing_content_is_longer :
  exists r log',
    ListFiles.execute
      (ListFiles.createInvocation Fixture.geminiConfig (Fixture.pageSize None))
      (Fixture.remoteWith Fixture.file1 PagerDone) Fixture.signal []
    = (Returned r, log')
    /\ error r = None
    /\ llmContent r <> "No files found".
Proof.
  eexists. eexists. split; [vm_compute; reflexivity|].
  split; [reflexivity | discriminate].
Qed.

(** C7 (amended): outside Vertex AI mode, when the client is made and the
    remote sequence ends without a failure and without a descriptor,
    [execute] returns a success result ([error] unset) whose content and
    display are exactly "No files found in the Gemini API file manager.",
    which starts with the phrase "No files found". *)
Theorem empty_listing_message :
  forall inv remote signal log pager,
    let cg := getContentGeneratorConfig (ListFiles.config inv) in
    truthyFlag (vertexai cg) = false ->
    newGoogleGenAI remote (clientKey cg) (vertexai cg) = Returned tt ->
    files_list remote (ListFiles.page_size (ListFiles.params inv)) signal
      = Returned pager ->
    pagerFault pager = None ->
    pagerFiles pager = [] ->
    (exists log',
        ListFiles.execute inv remote signal log
          = (Returned {| llmContent := "No files found in the Gemini API file manager.";
                         returnDisplay := "No files found in the Gemini API file manager.";
                         error := None |}, log'))
    /\ startsWith "No files found in the Gemini API file manager." "No files found"
       = true.
Proof.
  intros inv remote signal log pager cg Hv Hnew Hlist Hfault Hfiles.
  split; [|reflexivity].
  destruct (list_run inv remote signal log Hv) as [log' Hrun].
  exists log'. rewrite Hrun. cbv zeta. fold cg.
  now rewrite Hnew, Hlist, Hfault, Hfiles.
Qed.

Lemma empty_listing_message_witness :
  exists log',
    ListFiles.execute
      (ListFiles.createInvocation Fixture.geminiConfig (Fixture.pageSize None))
      (Fixture.remoteWith Fixture.file1 PagerDone) Fixture.signal []
    = (Returned {| llmContent := "No files found in the Gemini API file manager.";
                   returnDisplay := "No files found in the Gemini API file manager.";
                   error := None |}, log').
Proof.
  exact (proj1 (empty_listing_message
                  (ListFiles.createInvocation Fixture.geminiConfig (Fixture.pageSize None))
                  (Fixture.remoteWith Fixture.file1 PagerDone) Fixture.signal []
                  PagerDone eq_refl eq_refl eq_refl eq_refl eq_refl)).
Defined.

(* ================================================================== *)
(** ** The text of a listing                                           *)
(* ================================================================== *)

Module ListingFacts.

Lemma mapWithIndex_nth (callback : GeminiFile -> nat -> string) files :
  forall start i,
    nth_error (ListFiles.mapWithIndex callback files start) i
    = option_map (fun file => callback file (start + i)) (nth_error files i).
Proof.
  induction files as [|file rest IH]; intros start [|i]; cbn; try reflexivity.
  - now rewrite Nat.add_0_r.
  - rewrite IH. now rewrite Nat.add_succ_r.
Qed.

Lemma startsWith_join_head sep x xs : startsWith (join sep (x :: xs)) x = true.
Proof.
  destruct xs; cbn [join].
  - rewrite <- (append_empty_r x) at 1. apply startsWith_append.
  - apply startsWith_append.
Qed.

(** Two neighbours of an array are neighbours in its [join], in the same
    order. *)
Lemma includes_join_adjacent sep xs :
  forall i a b,
    nth_error xs i = Some a -> nth_error xs (S i) = Some b ->
    includes (join sep xs) (a ++ sep ++ b) = true.
Proof.
  induction xs as [|x rest IH]; intros i a b Ha Hb; [destruct i; discriminate|].
  destruct rest as [|y rest]; [destruct i as [|[|i]]; discriminate|].
  change (join sep (x :: y :: rest)) with (x ++ sep ++ join sep (y :: rest)).
  destruct i as [|i].
  - cbn in Ha, Hb. inversion Ha; inversion Hb; subst.
    apply includes_here. rewrite !startsWith_cancel. apply startsWith_join_head.
  - apply includes_skip, includes_skip. exact (IH i a b Ha Hb).
Qed.

Lemma orElse_shown dflt o v : shownAs dflt o v -> orElse o dflt = v.
Proof.
  intros [|w Hw]; cbn; [reflexivity|].
  apply String.eqb_neq in Hw. now rewrite Hw.
Qed.

Lemma uri_shown file v :
  uriShownAs file v -> orElse (orElseOpt (uri file) (name file)) "N/A" = v.
Proof.
  intros [w Hw Hsome | w Hnone Hw]; unfold orElseOpt.
  - inversion Hw as [Hu | u Hu Heq]; [congruence|]. subst.
    cbn. apply String.eqb_neq in Hu. rewrite Hu. cbn. now rewrite Hu.
  - rewrite Hnone. cbn. now apply orElse_shown.
Qed.

Lemma size_shown o v :
  sizeShownAs o v ->
  (if truthySize o then interpolateSize o ++ " bytes" else "unknown") = v.
Proof.
  intros [|n Hn|w Hw]; cbn; [reflexivity| |].
  - apply N.eqb_neq in Hn. now rewrite Hn.
  - apply String.eqb_neq in Hw. now rewrite Hw.
Qed.

(** An entry of the listing, property by property. *)
Lemma formatFile_shown file index d u m s st c :
  shownAs "N/A" (displayName file) d ->
  uriShownAs file u ->
  shownAs "unknown" (mimeType file) m ->
  sizeShownAs (sizeBytes file) s ->
  shownAs "unknown" (state file) st ->
  shownAs "unknown" (createTime file) c ->
  ListFiles.formatFile file index
  = ofNat (index + 1) ++ ". " ++ d ++ LF ++
    "   URI: " ++ u ++ LF ++
    "   MIME Type: " ++ m ++ LF ++
    "   Size: " ++ s ++ LF ++
    "   State: " ++ st ++ LF ++
    "   Created: " ++ c.
Proof.
  intros Hd Hu Hm Hs Hst Hc. unfold ListFiles.formatFile. cbv zeta.
  now rewrite (orElse_shown _ _ _ Hd), (uri_shown _ _ Hu), (orElse_shown _ _ _ Hm),
    (size_shown _ _ Hs), (orElse_shown _ _ _ Hst), (orElse_shown _ _ _ Hc).
Qed.

End ListingFacts.

Import ListingFacts.

(** C8: outside Vertex AI mode, when the remote sequence yields n >= 1
    descriptors and ends, [execute] returns a success result whose content
    opens with "Found n file(s)", holds one entry per descriptor in the
    order the sequence yielded them (entry i + 1 written after entry i and
    numbered from 1), and closes with the hint at the download_file tool.
    An entry shows the display name, the remote URI, the MIME type, the
    size, the state and the creation time; a property the descriptor lacks
    is shown as "N/A" (display name, URI) or "unknown". *)
Theorem listing_enumerates_in_order :
  forall inv remote signal log pager files,
    let cg := getContentGeneratorConfig (ListFiles.config inv) in
    truthyFlag (vertexai cg) = false ->
    newGoogleGenAI remote (clientKey cg) (vertexai cg) = Returned tt ->
    files_list remote (ListFiles.page_size (ListFiles.params inv)) signal
      = Returned pager ->
    pagerFault pager = None ->
    pagerFiles pager = files ->
    files <> [] ->
    (exists log',
        ListFiles.execute inv remote signal log
          = (Returned (successResult (ListFiles.successMessage files)), log'))
    /\ startsWith (ListFiles.successMessage files)
                  ("Found " ++ ofNat (length files) ++ " file(s)") = true
    /\ (forall i file,
          nth_error files i = Some file ->
          includes (ListFiles.successMessage files) (ListFiles.formatFile file i) = true
          /\ startsWith (ListFiles.formatFile file i) (ofNat (i + 1) ++ ". ") = true)
    /\ (forall i file next,
          nth_error files i = Some file ->
          nth_error files (S i) = Some next ->
          includes (ListFiles.successMessage files)
                   (ListFiles.formatFile file i ++ LF ++ LF ++
                    ListFiles.formatFile next (S i)) = true)
    /\ (forall file index d u m s st c,
          shownAs "N/A" (displayName file) d ->
          uriShownAs file u ->
          shownAs "unknown" (mimeType file) m ->
          sizeShownAs (sizeBytes file) s ->
          shownAs "unknown" (state file) st ->
          shownAs "unknown" (createTime file) c ->
          ListFiles.formatFile file index
          = ofNat (index + 1) ++ ". " ++ d ++ LF ++
            "   URI: " ++ u ++ LF ++
            "   MIME Type: " ++ m ++ LF ++
            "   Size: " ++ s ++ LF ++
            "   State: " ++ st ++ LF ++
            "   Created: " ++ c)
    /\ (exists body,
          ListFiles.successMessage files = body ++ LF ++ LF ++ ListFiles.trailer)
    /\ includes ListFiles.trailer "download_file" = true.
Proof.
  intros inv remote signal log pager files cg Hv Hnew Hlist Hfault Hfiles Hne.
  split; [|split; [|split; [|split; [|split; [|split]]]]].
  - destruct (list_run inv remote signal log Hv) as [log' Hrun].
    exists log'. rewrite Hrun. cbv zeta. fold cg.
    rewrite Hnew, Hlist, Hfault, Hfiles. now destruct files.
  - unfold ListFiles.successMessage. cbv zeta.
    rewrite !startsWith_cancel. reflexivity.
  - intros i file Hi. split.
    + unfold ListFiles.successMessage. cbv zeta.
      do 5 apply includes_skip. apply includes_keep, includes_join.
      apply (nth_error_In _ i). now rewrite mapWithIndex_nth, Hi.
    + unfold ListFiles.formatFile. cbv zeta. rewrite !startsWith_cancel.
      apply startsWith_empty.
  - intros i file next Hi Hnext.
    unfold ListFiles.successMessage. cbv zeta.
    do 5 apply includes_skip. apply includes_keep.
    rewrite <- (append_assoc LF LF).
    apply (includes_join_adjacent _ _ i);
      rewrite mapWithIndex_nth; [now rewrite Hi | now rewrite Hnext].
  - intros. now apply formatFile_shown.
  - unfold ListFiles.successMessage. cbv zeta.
    eexists. rewrite <- !append_assoc. reflexivity.
  - vm_compute. reflexivity.
Qed.

Lemma listing_enumerates_in_order_witness :
  startsWith (ListFiles.successMessage [Fixture.file1; Fixture.file2])
             "Found 2 file(s)" = true.
Proof.
  exact (proj1 (proj2 (listing_enumerates_in_order
                         (ListFiles.createInvocation Fixture.geminiConfig
                            (Fixture.pageSize (Some (Finite 10))))
                         (Fixture.remoteWith Fixture.file1 Fixture.twoFiles)
                         Fixture.signal [] Fixture.twoFiles
                         [Fixture.file1; Fixture.file2]
                         eq_refl eq_refl eq_refl eq_refl eq_refl
                         (fun E => nil_cons (eq_sym E))))).
Defined.

(* ================================================================== *)
(** ** The summary of an upload                                        *)
(* ================================================================== *)

(** The summary names the URI, the MIME type, the size and the state of the
    descriptor; a size that is a non-zero count or a non-empty string is
    followed by " bytes". *)
Lemma upload_summary_shows path file s :
  sizeShownAs (sizeBytes file) s ->
  includes (UploadFile.successMessage path file)
           (LF ++ "File URI: " ++ interpolate (orElseOpt (uri file) (name file)) ++ LF)
    = true
  /\ includes (UploadFile.successMessage path file)
              (LF ++ "MIME Type: " ++ interpolate (mimeType file) ++ LF) = true
  /\ includes (UploadFile.successMessage path file)
              (LF ++ "Size: " ++ s ++ LF) = true
  /\ includes (UploadFile.successMessage path file)
              (LF ++ "State: " ++ interpolate (state file) ++ LF) = true.
Proof.
  intro Hs. unfold UploadFile.successMessage. cbv zeta.
  rewrite (size_shown _ _ Hs).
  repeat split.
  - do 2 apply includes_skip. apply includes_here.
    rewrite !startsWith_cancel. apply startsWith_append.
  - do 5 apply includes_skip. apply includes_here.
    rewrite !startsWith_cancel. apply startsWith_append.
  - do 8 apply includes_skip. apply includes_here.
    rewrite !startsWith_cancel. apply startsWith_append.
  - do 11 apply includes_skip. apply includes_here.
    rewrite !startsWith_cancel. apply startsWith_append.
Qed.

Lemma decimal_not_empty (n : N) : ofN n <> EmptyString.
Proof.
  unfold ofN. destruct n as [|p]; [discriminate|]. cbn [N.to_uint].
  pose proof (Unsigned.to_uint_nonnil p) as Hp.
  destruct (Pos.to_uint p); [contradiction | discriminate ..].
Qed.

Lemma decimal_bytes_not_unknown (n : N) : ofN n ++ " bytes" <> "unknown".
Proof.
  unfold ofN. destruct (N.to_uint n); discriminate.
Qed.

(** C9: the summary of a successful upload holds the URI of the remote file
    (its resource name when it has no URI), the MIME type, the size and the
    state.  The remote gives the size as the decimal string of the byte
    count: a size of N bytes, N = 0 included, is shown as "<N> bytes" and
    not as "unknown"; a descriptor without a size is shown with "unknown". *)
Theorem upload_summary_shows_size :
  forall inv remote signal log file,
    let cg := getContentGeneratorConfig (UploadFile.config inv) in
    let path := UploadFile.absolute_path (UploadFile.params inv) in
    truthyFlag (vertexai cg) = false ->
    newGoogleGenAI remote (clientKey cg) (vertexai cg) = Returned tt ->
    files_upload remote path (UploadFile.display_name (UploadFile.params inv)) signal
      = Returned file ->
    (exists log',
        UploadFile.execute inv remote signal log
          = (Returned (successResult (UploadFile.successMessage path file)), log'))
    /\ exists sizeText,
         UploadFile.successMessage path file
         = "Successfully uploaded file: "
             ++ orElse (displayName file) (Path.basename path) ++ LF ++
           "File URI: " ++ interpolate (orElseOpt (uri file) (name file)) ++ LF ++
           "MIME Type: " ++ interpolate (mimeType file) ++ LF ++
           "Size: " ++ sizeText ++ LF ++
           "State: " ++ interpolate (state file) ++ LF ++
           LF ++
           "You can now reference this file in your prompts using the file URI."
         /\ (forall n : N,
               sizeBytes file = Some (SizeString (ofN n)) ->
               sizeText = ofN n ++ " bytes" /\ sizeText <> "unknown")
         /\ (sizeBytes file = Some (SizeString "0") -> sizeText = "0 bytes")
         /\ (sizeBytes file = None -> sizeText = "unknown").
Proof.
  intros inv remote signal log file cg path Hv Hnew Hup. split.
  - destruct (upload_run inv remote signal log Hv) as [log' Hrun].
    exists log'. rewrite Hrun. cbv zeta. fold cg. fold path.
    now rewrite Hnew, Hup.
  - exists (if truthySize (sizeBytes file)
            then interpolateSize (sizeBytes file) ++ " bytes" else "unknown").
    split; [reflexivity|]. split; [|split].
    + intros n Hn. rewrite Hn. cbn [truthySize interpolateSize].
      pose proof (decimal_not_empty n) as Hne. apply String.eqb_neq in Hne.
      rewrite Hne. cbn [negb]. split; [reflexivity | apply decimal_bytes_not_unknown].
    + intros ->. reflexivity.
    + intros ->. reflexivity.
Qed.

Lemma upload_summary_shows_size_witness :
  exists log',
    UploadFile.execute
      (UploadFile.createInvocation Fixture.geminiConfig
         (Fixture.uploadParams "/home/user/project/test.txt"))
      (Fixture.remoteWith Cases.zeroByteFile PagerDone) Fixture.signal []
    = (Returned
         (successResult
            (UploadFile.successMessage "/home/user/project/test.txt"
               Cases.zeroByteFile)), log')
    /\ includes (UploadFile.successMessage "/home/user/project/test.txt"
                   Cases.zeroByteFile)
                (LF ++ "Size: 0 bytes" ++ LF) = true.
Proof.
  destruct (proj1 (upload_summary_shows_size
                     (UploadFile.createInvocation Fixture.geminiConfig
                        (Fixture.uploadParams "/home/user/project/test.txt"))
                     (Fixture.remoteWith Cases.zeroByteFile PagerDone)
                     Fixture.signal [] Cases.zeroByteFile
                     eq_refl eq_refl eq_refl)) as [log' Hrun].
  exists log'. split; [exact Hrun | reflexivity].
Defined.

Example resolve_dots :
  Path.resolve "/home/u" "/tmp/proj/./a/../b.txt" = "/tmp/proj/b.txt".
Proof. reflexivity. Qed.

Example resolve_trailing :
  Path.resolve "/home/u" "/tmp//proj/" = "/tmp/proj".
Proof. reflexivity. Qed.

Example resolve_relative :
  Path.resolve "/home/u" "x/../y" = "/home/u/y".
Proof. reflexivity. Qed.

Example resolve_root :
  Path.resolve "/home/u" "/.." = "/".
Proof. reflexivity. Qed.

Example trim_blank :
  JsString.trim "   " = "" /\ JsString.trim "  a b " = "a b".
Proof. split; reflexivity. Qed.


(* ================================================================== *)
(** ** Further facts: what the validators accept                       *)
(* ================================================================== *)

Module AcceptanceFacts.
Import Shape.

Lemma trimStart_blank :
  forall s, trimStart s = EmptyString <-> allWhiteSpace s = true.
Proof.
  unfold allWhiteSpace. induction s as [s IH] using string_size_ind.
  destruct s as [|c1 r1]; [easy|].
  cbn [trimStart codePoints]. destruct (oneByte c1).
  { cbn [forallb]. destruct (isWhiteSpace (byte c1)); cbn [andb];
      [apply IH; cbn; lia | easy]. }
  destruct r1 as [|c2 r2]; [easy|].
  destruct (twoBytes c1 c2).
  { cbn [forallb]. destruct (isWhiteSpace (code2 c1 c2)); cbn [andb];
      [apply IH; cbn; lia | easy]. }
  destruct r2 as [|c3 r3]; [easy|].
  destruct (threeBytes c1 c2 c3).
  { cbn [forallb andb]. destruct (isWhiteSpace (code3 c1 c2 c3)); cbn [andb];
      [apply IH; cbn; lia | easy]. }
  cbn [andb]. destruct r3 as [|c4 r4]; [easy|].
  destruct (fourBytes c1 c2 c3 c4) eqn:H4; cbn [forallb]; [|easy].
  rewrite isWhiteSpace_high; [easy|].
  unfold fourBytes in H4. apply andb_true_iff in H4 as [_ H4].
  now apply N.leb_le.
Qed.

(** [trim] leaves nothing exactly of the strings made of white space. *)
Lemma trim_blank_iff s : trim s = EmptyString <-> allWhiteSpace s = true.
Proof.
  unfold trim. rewrite trimEnd_blank, trimStart_fixed. apply trimStart_blank.
Qed.

Lemma supported_split cg :
  supported cg = true <->
  truthyFlag (vertexai cg) = false
  /\ (authTypeIsNot (authType cg) USE_GEMINI &&
      authTypeIsNot (authType cg) LOGIN_WITH_GOOGLE) = false.
Proof.
  unfold supported. rewrite andb_true_iff, !negb_true_iff. reflexivity.
Qed.

Lemma supported_types cg :
  supported cg = true <->
  truthyFlag (vertexai cg) = false
  /\ (authType cg = Some USE_GEMINI \/ authType cg = Some LOGIN_WITH_GOOGLE).
Proof.
  rewrite supported_split. split; intros [Hv Ha]; split; try exact Hv.
  - destruct (authType cg) as [[]|]; cbn in Ha; try discriminate; auto.
  - destruct Ha as [-> | ->]; reflexivity.
Qed.

(** The upload validator, rule by rule after the sandbox rules. *)
Lemma upload_validate_cases cfg fs p :
  UploadFile.validateToolParamValues cfg fs p =
    match firstRejection (uploadRules cfg fs (UploadFile.absolute_path p)) with
    | Some m => Some m
    | None =>
        match lstatSync fs (UploadFile.absolute_path p) with
        | Raised _ =>
            Some (UploadFile.inaccessibleMessage (UploadFile.absolute_path p))
        | Returned _ =>
            let cg := getContentGeneratorConfig cfg in
            if truthyFlag (vertexai cg) then Some UploadFile.vertexMessage
            else if authTypeIsNot (authType cg) USE_GEMINI &&
                    authTypeIsNot (authType cg) LOGIN_WITH_GOOGLE
            then Some UploadFile.authMessage
            else None
        end
    end.
Proof.
  unfold uploadRules, UploadFile.validateToolParamValues, UploadFile.checkFile.
  cbn [firstRejection].
  destruct (trim (UploadFile.absolute_path p) =? EmptyString); [reflexivity|].
  destruct (Path.isAbsolute (UploadFile.absolute_path p)); cbn [negb]; [|reflexivity].
  destruct (negb (isPathWithinWorkspace _ _) && negb (UploadFile.isWithinTempDir _ _ _));
    [reflexivity|].
  destruct (shouldGeminiIgnoreFile cfg _); [reflexivity|].
  destruct (existsSync fs _); cbn [negb]; [|reflexivity].
  destruct (lstatSync fs _) as [stats|e]; [|reflexivity].
  destruct (isFile stats); cbn [negb]; reflexivity.
Qed.

Lemma neither_false (a b : bool) :
  negb a && negb b = false <-> a = true \/ b = true.
Proof. destruct a, b; cbn; intuition discriminate. Qed.

(** No sandbox rule rejects: what that says of the path. *)
Lemma no_rejection_iff cfg fs path :
  firstRejection (uploadRules cfg fs path) = None <->
  (trim path =? EmptyString) = false
  /\ Path.isAbsolute path = true
  /\ (isPathWithinWorkspace (getWorkspaceContext cfg) path = true
      \/ UploadFile.isWithinTempDir fs (getProjectTempDir cfg) path = true)
  /\ shouldGeminiIgnoreFile cfg path = false
  /\ existsSync fs path = true
  /\ (forall stats, lstatSync fs path = Returned stats -> isFile stats = true).
Proof.
  unfold uploadRules. cbn [firstRejection].
  rewrite <- neither_false.
  destruct (trim path =? EmptyString).
  { split; [discriminate | intros (H & _); discriminate]. }
  destruct (Path.isAbsolute path); cbn [negb].
  2:{ split; [discriminate | intros (_ & H & _); discriminate]. }
  destruct (negb (isPathWithinWorkspace _ path) && negb (UploadFile.isWithinTempDir _ _ path)).
  { split; [discriminate | intros (_ & _ & H & _); discriminate]. }
  destruct (shouldGeminiIgnoreFile cfg path).
  { split; [discriminate | intros (_ & _ & _ & H & _); discriminate]. }
  destruct (existsSync fs path); cbn [negb].
  2:{ split; [discriminate | intros (_ & _ & _ & _ & H & _); discriminate]. }
  destruct (lstatSync fs path) as [stats|e].
  - destruct (isFile stats) eqn:Hfile; cbn [negb].
    + split; [|reflexivity]. intros _. repeat split.
      intros stats' Heq. inversion Heq; subst. exact Hfile.
    + split; [discriminate|]. intros (_ & _ & _ & _ & _ & H).
      specialize (H stats eq_refl). congruence.
  - split; [|reflexivity]. intros _. repeat split. discriminate.
Qed.

End AcceptanceFacts.

Import Shape AcceptanceFacts.

(** X1: [build] of the upload tool returns an invocation exactly when the
    path has a character that is not white space, is absolute, lies within
    the workspace or the project temp directory, is not ignored, exists and
    is a regular file that can be examined, and the mode is not Vertex AI
    with the authentication type the Gemini key or the Google login; the
    invocation then holds the configuration and the parameters unchanged. *)
Theorem upload_build_accepts_iff :
  forall cfg fs p inv,
    UploadFile.build cfg fs p = Returned inv
    <->
    inv = UploadFile.createInvocation cfg p
    /\ allWhiteSpace (UploadFile.absolute_path p) = false
    /\ Path.isAbsolute (UploadFile.absolute_path p) = true
    /\ (isPathWithinWorkspace (getWorkspaceContext cfg) (UploadFile.absolute_path p) = true
        \/ UploadFile.isWithinTempDir fs (getProjectTempDir cfg)
             (UploadFile.absolute_path p) = true)
    /\ shouldGeminiIgnoreFile cfg (UploadFile.absolute_path p) = false
    /\ existsSync fs (UploadFile.absolute_path p) = true
    /\ (exists stats,
          lstatSync fs (UploadFile.absolute_path p) = Returned stats
          /\ isFile stats = true)
    /\ truthyFlag (vertexai (getContentGeneratorConfig cfg)) = false
    /\ (authType (getContentGeneratorConfig cfg) = Some USE_GEMINI
        \/ authType (getContentGeneratorConfig cfg) = Some LOGIN_WITH_GOOGLE).
Proof.
  intros cfg fs p inv.
  assert (Hblank : (trim (UploadFile.absolute_path p) =? EmptyString) = false
                   <-> allWhiteSpace (UploadFile.absolute_path p) = false).
  { rewrite String.eqb_neq, trim_blank_iff. now destruct (allWhiteSpace _). }
  rewrite <- Hblank.
  pose proof (supported_types (getContentGeneratorConfig cfg)) as Hsup.
  rewrite supported_split in Hsup.
  unfold UploadFile.build, buildWith. rewrite upload_validate_cases.
  pose proof (no_rejection_iff cfg fs (UploadFile.absolute_path p)) as Hrules.
  destruct (firstRejection _) as [m|].
  - split; [discriminate|].
    intros (_ & H1 & H2 & H3 & H4 & H5 & (stats & Hs & Hf) & _).
    destruct Hrules as [_ Hrules]. discriminate Hrules.
    repeat split; auto. intros stats' Hs'. congruence.
  - destruct Hrules as [Hrules _].
    destruct (Hrules eq_refl) as (H1 & H2 & H3 & H4 & H5 & H6).
    destruct (lstatSync fs _) as [stats|e].
    + cbv zeta.
      destruct (truthyFlag _).
      * split; [discriminate | intros (_ & _ & _ & _ & _ & _ & _ & H & _); discriminate].
      * destruct (authTypeIsNot _ _ && authTypeIsNot _ _).
        -- split; [discriminate|].
           intros (_ & _ & _ & _ & _ & _ & _ & Hv & Ha).
           destruct Hsup as [_ Hsup]. destruct (Hsup (conj Hv Ha)). discriminate.
        -- destruct Hsup as [Hsup _]. destruct (Hsup (conj eq_refl eq_refl)) as [Hv Ha].
           split.
           ++ intro H. inversion H. repeat split; auto. exists stats. auto.
           ++ intros (-> & _). reflexivity.
    + split; [discriminate|].
      intros (_ & _ & _ & _ & _ & _ & (stats & Hs & _) & _). discriminate.
Qed.

Lemma upload_build_accepts_iff_witness :
  existsSync Fixture.disk "/home/user/project/test.txt" = true.
Proof.
  exact (proj1 (proj2 (proj2 (proj2 (proj2 (proj2
           (proj1 (upload_build_accepts_iff Fixture.geminiConfig Fixture.disk
                     (Fixture.uploadParams "/home/user/project/test.txt")
                     (UploadFile.createInvocation Fixture.geminiConfig
                        (Fixture.uploadParams "/home/user/project/test.txt")))
                  eq_refl))))))).
Defined.

(** X2: the upload validator answers with the must-be-non-empty message
    exactly for the paths made of white space only, the empty path among
    them, whatever the configuration and the file system are. *)
Theorem upload_blank_path_rejected :
  forall cfg fs p,
    allWhiteSpace (UploadFile.absolute_path p) = true
    <-> UploadFile.validateToolParamValues cfg fs p = Some UploadFile.emptyMessage.
Proof.
  intros cfg fs p. rewrite <- trim_blank_iff, <- String.eqb_eq.
  unfold UploadFile.validateToolParamValues, UploadFile.checkFile.
  destruct (trim (UploadFile.absolute_path p) =? EmptyString); [easy|].
  split; [discriminate|]. intro H. exfalso. revert H.
  destruct (negb (Path.isAbsolute _)); [discriminate|].
  destruct (negb (isPathWithinWorkspace _ _) && negb (UploadFile.isWithinTempDir _ _ _));
    [discriminate|].
  destruct (shouldGeminiIgnoreFile cfg _); [discriminate|].
  destruct (negb (existsSync fs _)); [discriminate|].
  destruct (lstatSync fs _) as [stats|e]; [|discriminate].
  destruct (negb (isFile stats)); [discriminate|].
  destruct (truthyFlag _); [discriminate|].
  destruct (authTypeIsNot _ _ && authTypeIsNot _ _); discriminate.
Qed.

Lemma upload_blank_path_rejected_witness :
  UploadFile.validateToolParamValues Fixture.vertexConfig Cases.lockedDisk
    {| UploadFile.absolute_path := Cases.blankPath;
       UploadFile.display_name := None |}
  = Some UploadFile.emptyMessage.
Proof.
  apply (proj1 (upload_blank_path_rejected Fixture.vertexConfig Cases.lockedDisk
                  {| UploadFile.absolute_path := Cases.blankPath;
                     UploadFile.display_name := None |})).
  reflexivity.
Defined.

(** X3: when no sandbox rule rejects the path but [lstatSync] throws on it,
    the upload validator answers "File does not exist or cannot be
    accessed", whatever was thrown and whatever the authentication mode
    is. *)
Theorem upload_lstat_failure_message :
  forall cfg fs p e,
    firstRejection (uploadRules cfg fs (UploadFile.absolute_path p)) = None ->
    lstatSync fs (UploadFile.absolute_path p) = Raised e ->
    UploadFile.validateToolParamValues cfg fs p
      = Some ("File does not exist or cannot be accessed: " ++
              UploadFile.absolute_path p)
    /\ UploadFile.build cfg fs p
       = Raised (JsError (UploadFile.inaccessibleMessage (UploadFile.absolute_path p))).
Proof.
  intros cfg fs p e Hrules Hstat.
  assert (Hv : UploadFile.validateToolParamValues cfg fs p
               = Some (UploadFile.inaccessibleMessage (UploadFile.absolute_path p)))
    by now rewrite upload_validate_cases, Hrules, Hstat.
  split; [exact Hv | now apply build_of_validate].
Qed.

Lemma upload_lstat_failure_message_witness :
  UploadFile.build Fixture.vertexConfig Cases.lockedDisk
    (Fixture.uploadParams "/home/user/project/test.txt")
  = Raised (JsError "File does not exist or cannot be accessed: /home/user/project/test.txt").
Proof.
  exact (proj2 (upload_lstat_failure_message Fixture.vertexConfig Cases.lockedDisk
                  (Fixture.uploadParams "/home/user/project/test.txt")
                  (JsError "EACCES: permission denied") eq_refl eq_refl)).
Defined.

(** X4: outside Vertex AI mode, an authentication type that is neither the
    Gemini key nor the Google login (an unset one among them) makes the
    validators answer with the requires-key-or-OAuth message: the upload
    validator for a path that passes every file check, the listing
    validator for a page size that passes its check. *)
Theorem unsupported_auth_type_rejected :
  forall cfg,
    truthyFlag (vertexai (getContentGeneratorConfig cfg)) = false ->
    authType (getContentGeneratorConfig cfg) <> Some USE_GEMINI ->
    authType (getContentGeneratorConfig cfg) <> Some LOGIN_WITH_GOOGLE ->
    (forall fs p stats,
        firstRejection (uploadRules cfg fs (UploadFile.absolute_path p)) = None ->
        lstatSync fs (UploadFile.absolute_path p) = Returned stats ->
        UploadFile.validateToolParamValues cfg fs p = Some UploadFile.authMessage)
    /\ (forall p,
          match ListFiles.page_size p with
          | Some n => leZero n = false
          | None => True
          end ->
          ListFiles.validateToolParamValues cfg p = Some ListFiles.authMessage).
Proof.
  intros cfg Hv Hg Hl.
  assert (Ha : authTypeIsNot (authType (getContentGeneratorConfig cfg)) USE_GEMINI &&
               authTypeIsNot (authType (getContentGeneratorConfig cfg)) LOGIN_WITH_GOOGLE
               = true).
  { destruct (authType (getContentGeneratorConfig cfg)) as [[]|]; cbn; congruence. }
  split.
  - intros fs p stats Hrules Hstat.
    rewrite upload_validate_cases, Hrules, Hstat. cbv zeta. now rewrite Hv, Ha.
  - intros p Hp. unfold ListFiles.validateToolParamValues.
    destruct (ListFiles.page_size p) as [n|]; [rewrite Hp|]; now rewrite Hv, Ha.
Qed.

Lemma unsupported_auth_type_rejected_witness :
  UploadFile.validateToolParamValues Cases.unsetConfig Fixture.disk
    (Fixture.uploadParams "/home/user/project/test.txt")
  = Some UploadFile.authMessage
  /\ ListFiles.validateToolParamValues Cases.unsetConfig (Fixture.pageSize (Some NaN))
     = Some ListFiles.authMessage.
Proof.
  assert (Hg : authType (getContentGeneratorConfig Cases.unsetConfig) <> Some USE_GEMINI)
    by discriminate.
  assert (Hl : authType (getContentGeneratorConfig Cases.unsetConfig)
               <> Some LOGIN_WITH_GOOGLE) by discriminate.
  split.
  - apply (proj1 (unsupported_auth_type_rejected Cases.unsetConfig eq_refl Hg Hl))
      with (stats := {| isFile := true |}); reflexivity.
  - apply (proj2 (unsupported_auth_type_rejected Cases.unsetConfig eq_refl Hg Hl)).
    reflexivity.
Defined.

(** X5: [build] of the listing tool returns an invocation exactly when the
    page size is absent or not at most zero (NaN passes) and the mode is
    not Vertex AI with the authentication type the Gemini key or the Google
    login; the invocation then holds the configuration and the parameters
    unchanged. *)
Theorem list_build_accepts_iff :
  forall cfg p inv,
    ListFiles.build cfg p = Returned inv
    <->
    inv = ListFiles.createInvocation cfg p
    /\ (ListFiles.page_size p = None
        \/ exists n, ListFiles.page_size p = Some n /\ leZero n = false)
    /\ truthyFlag (vertexai (getContentGeneratorConfig cfg)) = false
    /\ (authType (getContentGeneratorConfig cfg) = Some USE_GEMINI
        \/ authType (getContentGeneratorConfig cfg) = Some LOGIN_WITH_GOOGLE).
Proof.
  intros cfg p inv.
  pose proof (supported_types (getContentGeneratorConfig cfg)) as Hsup.
  rewrite supported_split in Hsup.
  unfold ListFiles.build, buildWith, ListFiles.validateToolParamValues.
  destruct (ListFiles.page_size p) as [n|] eqn:Hp.
  - destruct (leZero n) eqn:Hn.
    + split; [discriminate|].
      intros (_ & [H | (n' & H & Hn')] & _); [discriminate | congruence].
    + destruct (truthyFlag _).
      * split; [discriminate | intros (_ & _ & H & _); discriminate].
      * destruct (authTypeIsNot _ _ && authTypeIsNot _ _).
        -- split; [discriminate|]. intros (_ & _ & Hv & Ha).
           destruct Hsup as [_ Hsup]. destruct (Hsup (conj Hv Ha)). discriminate.
        -- destruct Hsup as [Hsup _]. destruct (Hsup (conj eq_refl eq_refl)) as [Hv Ha].
           split.
           ++ intro H. inversion H. repeat split; auto. right. now exists n.
           ++ intros (-> & _). reflexivity.
  - destruct (truthyFlag _).
    + split; [discriminate | intros (_ & _ & H & _); discriminate].
    + destruct (authTypeIsNot _ _ && authTypeIsNot _ _).
      * split; [discriminate|]. intros (_ & _ & Hv & Ha).
        destruct Hsup as [_ Hsup]. destruct (Hsup (conj Hv Ha)). discriminate.
      * destruct Hsup as [Hsup _]. destruct (Hsup (conj eq_refl eq_refl)) as [Hv Ha].
        split.
        -- intro H. inversion H. repeat split; auto.
        -- intros (-> & _). reflexivity.
Qed.

Lemma list_build_accepts_iff_witness :
  ListFiles.build Fixture.geminiConfig (Fixture.pageSize (Some NaN))
  = Returned (ListFiles.createInvocation Fixture.geminiConfig
                (Fixture.pageSize (Some NaN))).
Proof.
  apply (proj2 (list_build_accepts_iff Fixture.geminiConfig (Fixture.pageSize (Some NaN))
                  (ListFiles.createInvocation Fixture.geminiConfig
                     (Fixture.pageSize (Some NaN))))).
  split; [reflexivity|]. split; [right; exists NaN; split; reflexivity|].
  split; [reflexivity | left; reflexivity].
Defined.

(* ================================================================== *)
(** ** Further facts: what a run asks of the remote and what it returns *)
(* ================================================================== *)

Module RunFacts.
Import Shape.

(** The loop pulls once per descriptor and once more, and stops there. *)
Lemma forAwait_log (p : Pager) :
  forall files log,
    snd (forAwait p files log) = (log ++ repeat CallNext (pulls p))%list.
Proof.
  induction p as [|file rest IH|e]; intros files log; try reflexivity.
  cbn [forAwait]. unfold bind, remoteCall at 1.
  rewrite IH, <- app_assoc. reflexivity.
Qed.

Lemma upload_built cfg fs p inv :
  UploadFile.build cfg fs p = Returned inv ->
  inv = UploadFile.createInvocation cfg p
  /\ truthyFlag (vertexai (getContentGeneratorConfig cfg)) = false.
Proof.
  unfold UploadFile.build, buildWith. rewrite upload_validate_cases.
  destruct (firstRejection _); [discriminate|].
  destruct (lstatSync fs _); [|discriminate]. cbv zeta.
  destruct (truthyFlag _); [discriminate|].
  destruct (authTypeIsNot _ _ && authTypeIsNot _ _); [discriminate|].
  intro H. inversion H. now split.
Qed.

Lemma list_built cfg p inv :
  ListFiles.build cfg p = Returned inv ->
  inv = ListFiles.createInvocation cfg p
  /\ truthyFlag (vertexai (getContentGeneratorConfig cfg)) = false.
Proof.
  unfold ListFiles.build, buildWith, ListFiles.validateToolParamValues.
  destruct (match ListFiles.page_size p with Some n => leZero n | None => false end);
    [discriminate|].
  destruct (truthyFlag _); [discriminate|].
  destruct (authTypeIsNot _ _ && authTypeIsNot _ _); [discriminate|].
  intro H. inversion H. now split.
Qed.

(** The result of an upload outside Vertex AI mode, by the failure met. *)
Lemma upload_result inv remote signal log r log' :
  truthyFlag (vertexai (getContentGeneratorConfig (UploadFile.config inv))) = false ->
  UploadFile.execute inv remote signal log = (Returned r, log') ->
  match uploadFault inv remote signal with
  | Some e =>
      r = errorResult
            (UploadFile.failureMessage
               (UploadFile.absolute_path (UploadFile.params inv)) (getErrorMessage e))
            FILE_UPLOAD_FAILURE
  | None =>
      exists file,
        files_upload remote (UploadFile.absolute_path (UploadFile.params inv))
          (UploadFile.display_name (UploadFile.params inv)) signal = Returned file
        /\ r = successResult
                 (UploadFile.successMessage
                    (UploadFile.absolute_path (UploadFile.params inv)) file)
  end.
Proof.
  intros Hv Hrun.
  destruct (upload_run inv remote signal log Hv) as [log1 Hrun1].
  rewrite Hrun1 in Hrun. inversion Hrun as [[Hr Hlog]]. clear Hrun Hrun1.
  unfold uploadFault. cbv zeta.
  destruct (newGoogleGenAI remote _ _) as [[]|e]; [|reflexivity].
  destruct (files_upload remote _ _ _) as [file|e]; [|reflexivity].
  now exists file.
Qed.

(** The result of a listing outside Vertex AI mode, by the failure met. *)
Lemma list_result inv remote signal log r log' :
  truthyFlag (vertexai (getContentGeneratorConfig (ListFiles.config inv))) = false ->
  ListFiles.execute inv remote signal log = (Returned r, log') ->
  match listFault inv remote signal with
  | Some e =>
      r = errorResult (ListFiles.failureMessage (getErrorMessage e)) FILE_LIST_FAILURE
  | None =>
      exists pager,
        files_list remote (ListFiles.page_size (ListFiles.params inv)) signal
          = Returned pager
        /\ r = successResult
                 (match pagerFiles pager with
                  | [] => ListFiles.emptyMessage
                  | files => ListFiles.successMessage files
                  end)
  end.
Proof.
  intros Hv Hrun.
  destruct (list_run inv remote signal log Hv) as [log1 Hrun1].
  rewrite Hrun1 in Hrun. inversion Hrun as [[Hr Hlog]]. clear Hrun Hrun1.
  unfold listFault. cbv zeta.
  destruct (newGoogleGenAI remote _ _) as [[]|e]; [|reflexivity].
  destruct (files_list remote _ _) as [pager|e]; [|reflexivity].
  destruct (pagerFault pager) as [e|]; [reflexivity|].
  exists pager. split; [reflexivity|]. now destruct (pagerFiles pager).
Qed.

End RunFacts.

Import RunFacts.

(** X6: what an upload asks of the remote file manager.  In Vertex AI mode
    nothing.  Otherwise it makes the client once, with the API key (none
    for an empty key) and the Vertex flag of the configuration, and then
    calls [files.upload] once with the path, the display name and the abort
    signal it was given, unchanged; when the client cannot be made the
    upload is not attempted. *)
Theorem upload_remote_calls :
  forall inv remote signal log,
    snd (UploadFile.execute inv remote signal log)
    = if truthyFlag (vertexai (getContentGeneratorConfig (UploadFile.config inv)))
      then log
      else (log ++ uploadCalls inv remote signal)%list.
Proof.
  intros inv remote signal log.
  unfold UploadFile.execute, uploadCalls, tryCatch, bind, remoteCall, ret, clientKey.
  destruct (truthyFlag _); [reflexivity|]. cbv zeta.
  destruct (newGoogleGenAI remote _ _) as [[]|e]; [|reflexivity].
  destruct (files_upload remote _ _ _) as [file|e]; cbn [snd];
    now rewrite <- app_assoc.
Qed.

(** X7: what a listing asks of the remote file manager.  In Vertex AI mode
    nothing.  Otherwise it makes the client once, calls [files.list] once
    with the page size and the abort signal it was given, unchanged, and
    asks the sequence for its next element once per descriptor and once
    more, for the end or for the failure; after a failure of the client or
    of the call nothing more is asked. *)
Theorem list_remote_calls :
  forall inv remote signal log,
    snd (ListFiles.execute inv remote signal log)
    = if truthyFlag (vertexai (getContentGeneratorConfig (ListFiles.config inv)))
      then log
      else (log ++ listCalls inv remote signal)%list.
Proof.
  intros inv remote signal log.
  unfold ListFiles.execute, listCalls, tryCatch, bind, remoteCall, ret, clientKey.
  destruct (truthyFlag _); [reflexivity|]. cbv zeta.
  destruct (newGoogleGenAI remote _ _) as [[]|e]; [|reflexivity].
  destruct (files_list remote _ _) as [pager|e]; [|cbn [snd]; now rewrite <- app_assoc].
  match goal with
  | |- context [forAwait pager [] ?l] =>
      pose proof (forAwait_log pager [] l) as Hlog;
      destruct (forAwait pager [] l) as [[files|e] log1]
  end; cbn [snd] in *; subst log1.
  - destruct (length files =? 0)%nat; cbn [snd];
      now rewrite <- !app_assoc.
  - now rewrite <- !app_assoc.
Qed.

(** X8: in every result of an upload or of a listing the display string
    equals the content, the content is not empty, and [error] is unset
    exactly when the mode is not Vertex AI and the remote file manager met
    no failure (making the client, answering the call, yielding the
    sequence). *)
Theorem results_are_populated :
  forall remote signal log,
    (forall inv r log',
        UploadFile.execute inv remote signal log = (Returned r, log') ->
        returnDisplay r = llmContent r
        /\ llmContent r <> EmptyString
        /\ (error r = None
            <-> truthyFlag (vertexai (getContentGeneratorConfig (UploadFile.config inv)))
                  = false
                /\ uploadFault inv remote signal = None))
    /\ (forall inv r log',
          ListFiles.execute inv remote signal log = (Returned r, log') ->
          returnDisplay r = llmContent r
          /\ llmContent r <> EmptyString
          /\ (error r = None
              <-> truthyFlag (vertexai (getContentGeneratorConfig (ListFiles.config inv)))
                    = false
                  /\ listFault inv remote signal = None)).
Proof.
  intros remote signal log. split; intros inv r log' Hrun.
  - destruct (truthyFlag (vertexai (getContentGeneratorConfig (UploadFile.config inv))))
      eqn:Hv.
    + rewrite (upload_vertex_run inv remote signal log Hv) in Hrun.
      inversion Hrun; subst. cbn. repeat split; try discriminate.
      intros [H _]; discriminate.
    + pose proof (upload_result inv remote signal log r log' Hv Hrun) as Hres.
      destruct (uploadFault inv remote signal) as [e|].
      * subst r. cbn. repeat split; try discriminate. intros [_ H]; discriminate.
      * destruct Hres as (file & _ & ->). cbn. repeat split; discriminate.
  - destruct (truthyFlag (vertexai (getContentGeneratorConfig (ListFiles.config inv))))
      eqn:Hv.
    + rewrite (list_vertex_run inv remote signal log Hv) in Hrun.
      inversion Hrun; subst. cbn. repeat split; try discriminate.
      intros [H _]; discriminate.
    + pose proof (list_result inv remote signal log r log' Hv Hrun) as Hres.
      destruct (listFault inv remote signal) as [e|].
      * subst r. cbn. repeat split; try discriminate. intros [_ H]; discriminate.
      * destruct Hres as (pager & _ & ->).
        destruct (pagerFiles pager); cbn; repeat split; discriminate.
Qed.

Lemma results_are_populated_witness :
  llmContent (errorResult (ListFiles.failureMessage "connection reset") FILE_LIST_FAILURE)
  <> EmptyString.
Proof.
  exact (proj1 (proj2 (proj2 (results_are_populated
                                (Fixture.remoteWith Fixture.file1 Fixture.brokenListing)
                                Fixture.signal [])
                         (ListFiles.createInvocation Fixture.geminiConfig
                            (Fixture.pageSize None))
                         (errorResult (ListFiles.failureMessage "connection reset")
                                      FILE_LIST_FAILURE)
                         [CallNewGoogleGenAI (Some "test-api-key") (Some false);
                          CallList None Fixture.signal; CallNext; CallNext]
                         eq_refl))).
Defined.

(** X9: an invocation that [build] returned is never refused by [execute]
    for the authentication mode, the configuration being the one it was
    built with: an error in the result of the upload is of the kind
    FILE_UPLOAD_FAILURE, in the result of the listing of the kind
    FILE_LIST_FAILURE, and comes from a failure of the remote file
    manager. *)
Theorem built_invocation_not_refused :
  forall remote signal log,
    (forall cfg fs p inv r log' err,
        UploadFile.build cfg fs p = Returned inv ->
        UploadFile.execute inv remote signal log = (Returned r, log') ->
        error r = Some err ->
        type err = FILE_UPLOAD_FAILURE /\ uploadFault inv remote signal <> None)
    /\ (forall cfg p inv r log' err,
          ListFiles.build cfg p = Returned inv ->
          ListFiles.execute inv remote signal log = (Returned r, log') ->
          error r = Some err ->
          type err = FILE_LIST_FAILURE /\ listFault inv remote signal <> None).
Proof.
  intros remote signal log. split.
  - intros cfg fs p inv r log' err Hbuild Hrun Herr.
    destruct (upload_built _ _ _ _ Hbuild) as [-> Hv].
    pose proof (upload_result (UploadFile.createInvocation cfg p)
                  remote signal log r log' Hv Hrun) as Hres.
    destruct (uploadFault _ remote signal) as [e|].
    + subst r. cbn in Herr. inversion Herr. split; [reflexivity | discriminate].
    + destruct Hres as (file & _ & ->). discriminate.
  - intros cfg p inv r log' err Hbuild Hrun Herr.
    destruct (list_built _ _ _ Hbuild) as [-> Hv].
    pose proof (list_result (ListFiles.createInvocation cfg p)
                  remote signal log r log' Hv Hrun) as Hres.
    destruct (listFault _ remote signal) as [e|].
    + subst r. cbn in Herr. inversion Herr. split; [reflexivity | discriminate].
    + destruct Hres as (pager & _ & ->). discriminate.
Qed.

Lemma built_invocation_not_refused_witness :
  type {| message := UploadFile.failureMessage "/home/user/project/test.txt"
                       "Upload failed";
          type := FILE_UPLOAD_FAILURE |} = FILE_UPLOAD_FAILURE.
Proof.
  exact (proj1 (proj1 (built_invocation_not_refused Fixture.remoteDown Fixture.signal [])
                  Fixture.geminiConfig Fixture.disk
                  (Fixture.uploadParams "/home/user/project/test.txt")
                  (UploadFile.createInvocation Fixture.geminiConfig
                     (Fixture.uploadParams "/home/user/project/test.txt"))
                  (errorResult
                     (UploadFile.failureMessage "/home/user/project/test.txt"
                        "Upload failed")
                     FILE_UPLOAD_FAILURE)
                  [CallNewGoogleGenAI (Some "test-api-key") (Some false);
                   CallUpload "/home/user/project/test.txt" None Fixture.signal]
                  {| message := UploadFile.failureMessage "/home/user/project/test.txt"
                                  "Upload failed";
                     type := FILE_UPLOAD_FAILURE |}
                  eq_refl eq_refl eq_refl)).
Defined.

(* ================================================================== *)
(** ** Further facts: segments of a path                               *)
(* ================================================================== *)

Module SegmentFacts.
Import Shape.

Lemma split_not_nil c s : split c s <> [].
Proof.
  destruct s as [|a r]; cbn; [discriminate|].
  destruct (Ascii.eqb a c); [discriminate|].
  destruct (split c r); discriminate.
Qed.

(** Splitting at a separator splits the parts on either side of it. *)
Lemma split_app_sep c a b :
  split c (a ++ String c b) = (split c a ++ split c b)%list.
Proof.
  induction a as [|x a IH]; cbn.
  - now rewrite Ascii.eqb_refl.
  - destruct (Ascii.eqb x c); [now rewrite IH|].
    rewrite IH. pose proof (split_not_nil c a) as Hne.
    destruct (split c a); [easy | reflexivity].
Qed.

Lemma split_noSlash s : noSlash s = true -> split Path.slash s = [s].
Proof.
  induction s as [|a r IH]; cbn; [reflexivity|].
  intro H. apply andb_true_iff in H as [Ha Hr].
  apply negb_true_iff in Ha. now rewrite Ha, (IH Hr).
Qed.

Lemma split_parts_noSlash s :
  Forall (fun seg => noSlash seg = true) (split Path.slash s).
Proof.
  induction s as [|a r IH]; cbn; [now repeat constructor|].
  destruct (Ascii.eqb a Path.slash) eqn:Ha; [now constructor|].
  destruct (split Path.slash r) as [|h t]; [repeat constructor; cbn; now rewrite Ha|].
  inversion IH; subst. constructor; [cbn; now rewrite Ha | assumption].
Qed.

Lemma normalizeSegments_app above stack xs ys :
  Path.normalizeSegments above stack (xs ++ ys)%list
  = Path.normalizeSegments above (Path.normalizeSegments above stack xs) ys.
Proof.
  revert stack. induction xs as [|x xs IH]; intro stack; [reflexivity|].
  cbn [app Path.normalizeSegments].
  destruct ((x =? EmptyString) || (x =? ".")); [apply IH|].
  destruct (x =? ".."); [|apply IH].
  destruct stack as [|top below]; [apply IH|].
  destruct (top =? ".."); apply IH.
Qed.

(** Below the root, what is kept are plain segments. *)
Lemma normalizeSegments_plain segs :
  Forall (fun seg => noSlash seg = true) segs ->
  forall stack,
    Forall (fun seg => plainSegment seg = true) stack ->
    Forall (fun seg => plainSegment seg = true)
           (Path.normalizeSegments false stack segs).
Proof.
  induction 1 as [|seg segs Hseg _ IH]; intros stack Hstack; [exact Hstack|].
  cbn [Path.normalizeSegments].
  destruct (seg =? EmptyString) eqn:He; cbn [orb]; [now apply IH|].
  destruct (seg =? ".") eqn:Hd; [now apply IH|].
  destruct (seg =? "..") eqn:Hdd.
  - destruct stack as [|top below]; [now apply IH|].
    destruct (top =? ".."); [now apply IH|].
    apply IH. now inversion Hstack.
  - apply IH. constructor; [|exact Hstack].
    unfold plainSegment, entryName. now rewrite He, Hd, Hdd, Hseg.
Qed.

Lemma segments_plain p :
  Forall (fun seg => plainSegment seg = true) (Path.segments p).
Proof.
  unfold Path.segments. apply Forall_rev.
  apply normalizeSegments_plain; [apply split_parts_noSlash | constructor].
Qed.

(** A separator at the end adds no segment. *)
Lemma segments_trailing p : Path.segments (p ++ "/") = Path.segments p.
Proof.
  unfold Path.segments.
  change (p ++ "/") with (p ++ String Path.slash EmptyString).
  rewrite split_app_sep, normalizeSegments_app. reflexivity.
Qed.

Lemma resolve_segments cwd p :
  Path.isAbsolute p = true ->
  Path.resolve cwd p = "/" ++ join Path.sep (Path.segments p).
Proof.
  intro H. now rewrite (resolve_absolute cwd p H), segments_trailing.
Qed.

Lemma plain_entry seg : plainSegment seg = true -> entryName seg = true.
Proof.
  unfold plainSegment. intro H.
  apply andb_true_iff in H as [H _]. now apply andb_true_iff in H as [H _].
Qed.

(** After names without a separator, two texts that agree up to tails that
    are empty or start with a separator agree name by name. *)
Lemma name_then_tail a :
  forall b t1 t2,
    noSlash a = true -> noSlash b = true ->
    (t1 = EmptyString \/ exists r, t1 = String Path.slash r) ->
    (t2 = EmptyString \/ exists r, t2 = String Path.slash r) ->
    a ++ t1 = b ++ t2 ->
    a = b /\ t1 = t2.
Proof.
  induction a as [|c a IH]; intros [|d b] t1 t2 Ha Hb H1 H2 Heq; cbn in *.
  - now split.
  - exfalso. apply andb_true_iff in Hb as [Hd _]. apply negb_true_iff in Hd.
    destruct H1 as [-> | [r ->]]; [discriminate|].
    inversion Heq; subst. now rewrite Ascii.eqb_refl in Hd.
  - exfalso. apply andb_true_iff in Ha as [Hc _]. apply negb_true_iff in Hc.
    destruct H2 as [-> | [r ->]]; [discriminate|].
    inversion Heq; subst. now rewrite Ascii.eqb_refl in Hc.
  - apply andb_true_iff in Ha as [_ Ha]. apply andb_true_iff in Hb as [_ Hb].
    inversion Heq; subst.
    destruct (IH b t1 t2 Ha Hb H1 H2) as [-> ->]; [assumption | now split].
Qed.

Lemma join_cons x xs :
  join Path.sep (x :: xs)
  = x ++ match xs with [] => EmptyString | _ => Path.sep ++ join Path.sep xs end.
Proof. destruct xs; cbn [join]; [now rewrite append_empty_r | reflexivity]. Qed.

(** A text of joined names that continues another, at its end or at a
    separator, continues it name by name. *)
Lemma join_continues xs :
  forall ys t,
    Forall (fun seg => entryName seg = true) xs ->
    Forall (fun seg => entryName seg = true) ys ->
    (t = EmptyString \/ exists r, t = String Path.slash r) ->
    join Path.sep ys = join Path.sep xs ++ t ->
    initialPart xs ys.
Proof.
  induction xs as [|x xs IH]; intros ys t Hxs Hys Ht Heq.
  - now exists ys.
  - inversion Hxs as [|? ? Hx Hxs']; subst.
    unfold entryName in Hx. apply andb_true_iff in Hx as [Hxne Hx].
    apply negb_true_iff, String.eqb_neq in Hxne.
    destruct ys as [|y ys].
    + exfalso. rewrite join_cons in Heq. cbn [join] in Heq.
      destruct x; [easy | discriminate].
    + inversion Hys as [|? ? Hy Hys']; subst.
      unfold entryName in Hy. apply andb_true_iff in Hy as [_ Hy].
      rewrite !join_cons, append_assoc in Heq.
      apply name_then_tail in Heq; try assumption.
      * destruct Heq as [-> Htail].
        destruct xs as [|x' xs].
        -- now exists ys.
        -- destruct ys as [|y' ys].
           ++ exfalso. cbn in Htail. discriminate.
           ++ unfold Path.sep in Htail. cbn [append] in Htail.
              inversion Htail as [Hjoin].
              destruct (IH (y' :: ys) t Hxs' Hys' Ht Hjoin) as [more Hmore].
              exists more. cbn [app]. now rewrite Hmore.
      * destruct ys; [now left | right; eexists; reflexivity].
      * destruct xs; [exact Ht | right; eexists; reflexivity].
Qed.

Lemma Forall_entry segs :
  Forall (fun seg => plainSegment seg = true) segs ->
  Forall (fun seg => entryName seg = true) segs.
Proof.
  intro H. eapply Forall_impl; [|exact H]. intros seg. apply plain_entry.
Qed.

(** Within the temp directory: the canonical segments of the directory
    open those of the path. *)
Lemma within_initialPart fs temp p :
  Path.isAbsolute temp = true -> Path.isAbsolute p = true ->
  UploadFile.isWithinTempDir fs temp p = true ->
  initialPart (Path.segments temp) (Path.segments p).
Proof.
  intros Ht Hp. unfold UploadFile.isWithinTempDir.
  rewrite (resolve_segments _ _ Ht), (resolve_segments _ _ Hp).
  intro H. apply orb_true_iff in H as [H|H].
  - apply startsWith_spec in H as [rest Hrest].
    rewrite !append_assoc in Hrest. cbn [append] in Hrest.
    inversion Hrest as [Hjoin].
    apply (join_continues _ _ (String Path.slash rest));
      [apply Forall_entry, segments_plain | apply Forall_entry, segments_plain
       | right; eexists; reflexivity | exact Hjoin].
  - apply String.eqb_eq in H. cbn [append] in H. inversion H as [Hjoin].
    apply (join_continues _ _ EmptyString);
      [apply Forall_entry, segments_plain | apply Forall_entry, segments_plain
       | now left | now rewrite append_empty_r].
Qed.

(** The other way round, for a temp directory that is not the root. *)
Lemma initialPart_within fs temp p :
  Path.isAbsolute temp = true -> Path.isAbsolute p = true ->
  Path.segments temp <> [] ->
  initialPart (Path.segments temp) (Path.segments p) ->
  UploadFile.isWithinTempDir fs temp p = true.
Proof.
  intros Ht Hp Hne [more Hmore]. apply nested_isWithinTempDir.
  unfold equalOrNestedUnder.
  rewrite (resolve_segments _ _ Ht), (resolve_segments _ _ Hp), Hmore.
  destruct more as [|m more].
  - left. now rewrite app_nil_r.
  - right. exists (join Path.sep (m :: more)).
    rewrite join_app by (assumption || discriminate).
    now rewrite !append_assoc.
Qed.

End SegmentFacts.

Import SegmentFacts.

Module CanonicalFacts.
Import Shape.

Lemma split_join segs :
  Forall (fun seg => entryName seg = true) segs -> segs <> [] ->
  split Path.slash (join Path.sep segs) = segs.
Proof.
  induction 1 as [|seg segs Hseg Hsegs IH]; intro Hne; [easy|].
  unfold entryName in Hseg. apply andb_true_iff in Hseg as [_ Hseg].
  destruct segs as [|seg' segs].
  - cbn [join]. now apply split_noSlash.
  - change (join Path.sep (seg :: seg' :: segs))
      with (seg ++ String Path.slash (join Path.sep (seg' :: segs))).
    rewrite split_app_sep, (split_noSlash _ Hseg), IH by discriminate.
    reflexivity.
Qed.

Lemma normalizeSegments_keep segs :
  Forall (fun seg => plainSegment seg = true) segs ->
  forall stack,
    Path.normalizeSegments false stack segs = (rev segs ++ stack)%list.
Proof.
  induction 1 as [|seg segs Hseg _ IH]; intro stack; [reflexivity|].
  cbn [Path.normalizeSegments rev].
  unfold plainSegment, entryName in Hseg.
  apply andb_true_iff in Hseg as [Hseg Hdd].
  apply andb_true_iff in Hseg as [Hseg Hd].
  apply andb_true_iff in Hseg as [He _].
  apply negb_true_iff in He, Hd, Hdd. rewrite He, Hd, Hdd. cbn [orb].
  now rewrite IH, <- app_assoc.
Qed.

(** The segments of a canonical form are the segments it was made of. *)
Lemma segments_of_canonical segs :
  Forall (fun seg => plainSegment seg = true) segs ->
  Path.segments ("/" ++ join Path.sep segs) = segs.
Proof.
  intro H. unfold Path.segments.
  change ("/" ++ join Path.sep segs)
    with (EmptyString ++ String Path.slash (join Path.sep segs)).
  rewrite split_app_sep. cbn [split app Path.normalizeSegments String.eqb orb].
  destruct segs as [|seg segs].
  - reflexivity.
  - rewrite split_join by (try discriminate; now apply Forall_entry).
    rewrite normalizeSegments_keep by assumption.
    now rewrite app_nil_r, rev_involutive.
Qed.

Lemma basename_of_entry dir name :
  entryName name = true -> Path.basename (dir ++ "/" ++ name) = name.
Proof.
  unfold entryName. intro H. apply andb_true_iff in H as [Hne Hns].
  unfold Path.basename.
  change (dir ++ "/" ++ name) with (dir ++ String Path.slash name).
  rewrite split_app_sep, (split_noSlash _ Hns), rev_app_distr.
  cbn [rev app filter]. now rewrite Hne.
Qed.

End CanonicalFacts.

Import CanonicalFacts.

(** X10: the temp-directory test of the upload validator admits descendants
    only.  For an absolute temp directory and an absolute path, the test
    holds only if the canonical segments of the directory (no ".", no "..",
    no empty segment) open those of the path, and, the directory not being
    the root, whenever they do.  So an upload that [build] accepted for a
    path outside the workspace is of a file below the temp directory. *)
Theorem temp_dir_admits_descendants_only :
  forall fs temp path,
    Path.isAbsolute temp = true ->
    Path.isAbsolute path = true ->
    (UploadFile.isWithinTempDir fs temp path = true ->
     initialPart (Path.segments temp) (Path.segments path))
    /\ (Path.segments temp <> [] ->
        initialPart (Path.segments temp) (Path.segments path) ->
        UploadFile.isWithinTempDir fs temp path = true)
    /\ (forall cfg display inv,
          getProjectTempDir cfg = temp ->
          UploadFile.build cfg fs {| UploadFile.absolute_path := path;
                                     UploadFile.display_name := display |}
            = Returned inv ->
          isPathWithinWorkspace (getWorkspaceContext cfg) path = false ->
          initialPart (Path.segments temp) (Path.segments path)).
Proof.
  intros fs temp path Ht Hp. split; [|split].
  - now apply within_initialPart.
  - now apply initialPart_within.
  - intros cfg display inv Htemp Hbuild Hws. subst temp.
    apply (within_initialPart fs); try assumption.
    revert Hbuild. unfold UploadFile.build, buildWith.
    rewrite upload_validate_cases. cbn [UploadFile.absolute_path].
    destruct (firstRejection _) eqn:Hrules; [discriminate|]. intros _.
    apply no_rejection_iff in Hrules as (_ & _ & [H|H] & _); [congruence | exact H].
Qed.

Lemma temp_dir_admits_descendants_only_witness :
  initialPart (Path.segments Fixture.tempDir)
              (Path.segments "/home/user/.gemini/tmp/abc/sub/../temp-file.txt").
Proof.
  apply (proj1 (temp_dir_admits_descendants_only Fixture.disk Fixture.tempDir
                  "/home/user/.gemini/tmp/abc/sub/../temp-file.txt" eq_refl eq_refl)).
  reflexivity.
Defined.

(** X11: [path.resolve] of an absolute path, as the validator uses it, gives
    a canonical form: it does not depend on the working directory, is
    absolute, is the root followed by the segments of the path without the
    empty ones, the "." and the resolved "..", and resolving it again
    changes nothing. *)
Theorem resolve_is_canonical :
  forall cwd cwd' path,
    Path.isAbsolute path = true ->
    Path.resolve cwd path = Path.resolve cwd' path
    /\ Path.isAbsolute (Path.resolve cwd path) = true
    /\ Path.resolve cwd path = "/" ++ join "/" (Path.segments path)
    /\ Forall (fun seg => plainSegment seg = true) (Path.segments path)
    /\ Path.resolve cwd' (Path.resolve cwd path) = Path.resolve cwd path.
Proof.
  intros cwd cwd' path Hp.
  pose proof (segments_plain path) as Hplain.
  rewrite (resolve_segments cwd _ Hp), (resolve_segments cwd' _ Hp).
  repeat split; try assumption.
  rewrite resolve_segments by reflexivity.
  now rewrite segments_of_canonical.
Qed.

Lemma resolve_is_canonical_witness :
  Path.resolve "/srv" (Path.resolve "/home/user" "/tmp//proj/./a/../b.txt")
  = Path.resolve "/home/user" "/tmp//proj/./a/../b.txt".
Proof.
  exact (proj2 (proj2 (proj2 (proj2
           (resolve_is_canonical "/home/user" "/srv" "/tmp//proj/./a/../b.txt"
              eq_refl))))).
Defined.

(** X12: the first line of the summary of an upload names the file: by the
    display name of the descriptor when it has one that is not empty, and
    otherwise by the last part of the path that was uploaded. *)
Theorem upload_summary_names_file :
  forall dir name file,
    entryName name = true ->
    Path.basename (dir ++ "/" ++ name) = name
    /\ (truthyStr (displayName file) = false ->
        startsWith (UploadFile.successMessage (dir ++ "/" ++ name) file)
                   ("Successfully uploaded file: " ++ name ++ LF) = true)
    /\ (forall shown,
          displayName file = Some shown -> shown <> EmptyString ->
          startsWith (UploadFile.successMessage (dir ++ "/" ++ name) file)
                     ("Successfully uploaded file: " ++ shown ++ LF) = true).
Proof.
  intros dir name file Hname.
  pose proof (basename_of_entry dir name Hname) as Hbase.
  split; [exact Hbase|]. unfold UploadFile.successMessage. cbv zeta.
  rewrite Hbase. split.
  - intro Hd.
    assert (Hor : orElse (displayName file) name = name).
    { destruct (displayName file) as [d|]; cbn in *; [|reflexivity].
      apply negb_false_iff in Hd. now rewrite Hd. }
    rewrite Hor, !startsWith_cancel. apply startsWith_append.
  - intros shown Hd Hne. rewrite Hd. cbn [orElse].
    apply String.eqb_neq in Hne. rewrite Hne.
    rewrite !startsWith_cancel. apply startsWith_append.
Qed.

Lemma upload_summary_names_file_witness :
  Path.basename ("/home/user/project" ++ "/" ++ "test.txt") = "test.txt".
Proof.
  exact (proj1 (upload_summary_names_file "/home/user/project" "test.txt"
                  Cases.bareFile eq_refl)).
Defined.

(** X13: what the summary of an upload shows for properties the descriptor
    lacks.  The URI line shows the uri, else the resource name, and
    "undefined" when there is neither; the MIME type and the state are
    shown as "undefined" when missing (the listing shows "unknown"). *)
Theorem upload_summary_missing_properties :
  forall path file,
    includes (UploadFile.successMessage path file)
             (LF ++ "File URI: "
                 ++ match uri file, name file with
                    | Some u, n => if u =? EmptyString
                                   then match n with Some v => v | None => "undefined" end
                                   else u
                    | None, Some v => v
                    | None, None => "undefined"
                    end ++ LF) = true
    /\ (mimeType file = None ->
        includes (UploadFile.successMessage path file)
                 (LF ++ "MIME Type: undefined" ++ LF) = true)
    /\ (state file = None ->
        includes (UploadFile.successMessage path file)
                 (LF ++ "State: undefined" ++ LF) = true)
    /\ (mimeType file = None ->
        forall index,
          includes (ListFiles.formatFile file index)
                   (LF ++ "   MIME Type: unknown" ++ LF) = true).
Proof.
  intros path file. unfold UploadFile.successMessage. cbv zeta.
  split; [|split; [|split]].
  - assert (Huri : interpolate (orElseOpt (uri file) (name file))
                   = match uri file, name file with
                     | Some u, n => if u =? EmptyString
                                    then match n with Some v => v | None => "undefined" end
                                    else u
                     | None, Some v => v
                     | None, None => "undefined"
                     end).
    { unfold orElseOpt, truthyStr.
      destruct (uri file) as [u|], (name file) as [n|]; cbn;
        try destruct (u =? EmptyString) eqn:Hu; cbn; rewrite ?Hu; reflexivity. }
    rewrite <- Huri.
    do 2 apply includes_skip. apply includes_here.
    rewrite !startsWith_cancel. apply startsWith_append.
  - intros ->. cbn [interpolate].
    do 5 apply includes_skip. apply includes_here.
    rewrite !startsWith_cancel. reflexivity.
  - intros ->. cbn [interpolate].
    do 11 apply includes_skip. apply includes_here.
    rewrite !startsWith_cancel. reflexivity.
  - intros Hm index. unfold ListFiles.formatFile. cbv zeta. rewrite Hm.
    cbn [orElse].
    do 6 apply includes_skip. apply includes_here.
    rewrite !startsWith_cancel. reflexivity.
Qed.

Lemma upload_summary_missing_properties_witness :
  includes (UploadFile.successMessage "/home/user/project/test.txt" Cases.blankFile)
           (LF ++ "State: undefined" ++ LF) = true.
Proof.
  apply (proj1 (proj2 (proj2 (upload_summary_missing_properties
                                "/home/user/project/test.txt" Cases.blankFile)))).
  reflexivity.
Defined.


